(** * lucastars-webshop: the seeding pipeline, the game queries and the cart page

    A shallow embedding of
    - [src/api/src/services/GameService.ts]: [GameService.getGames] (the
      statement-building part) and the abstract class [Seeder] ([seed],
      [truncate], [getRecordsDev]);
    - [src/web/src/components/CartPageComponent.ts]: [removeItem],
      [updateBackendCart] and [render].

    JavaScript objects are mutable and shared, so records live in a heap and
    are passed around as references.  The collaborators that are not part of
    these files ([DatabaseService], [CartService]) are parameters: their
    answers are arbitrary functions of the history of calls made so far.
    [async]/[await] code runs one step after the other, so a method is a
    state-passing function that either returns or throws. *)

From Stdlib Require Import PrimFloat.
From stdpp Require Import base option list gmap strings pretty.

Local Open Scope Z_scope.
Local Open Scope string_scope.

(** ** JavaScript values, exceptions and the method monad *)

(** The values a record column can hold. *)
#[warnings="-register-all"]
Inductive jsval :=
  | VUndefined
  | VNull
  | VBool (b : bool)
  | VNum (n : Z)
  | VStr (s : string)
  | VArr (l : list jsval).

(** [new Error(message)] and the engine's own [TypeError]. *)
Inductive exn :=
  | Error (message : string)
  | TypeError (message : string).

(** How a call ends: [return a] or [throw e]. *)
Inductive outcome (A : Type) :=
  | Return (a : A)
  | Throw (e : exn).
Arguments Return {A} a.
Arguments Throw {A} e.

(** A method over a mutable state [S]. *)
Definition M (S A : Type) : Type := S -> outcome A * S.

#[global] Instance M_ret {S} : MRet (M S) := fun A a s => (Return a, s).

#[global] Instance M_bind {S} : MBind (M S) := fun A B k m s =>
  match m s with
  | (Return a, s') => k a s'
  | (Throw e, s') => (Throw e, s')
  end.

Definition throw {S A} (e : exn) : M S A := fun s => (Throw e, s).

(** Reading the state. *)
Definition gets {S A} (f : S -> A) : M S A := fun s => (Return (f s), s).

(** [try { body } finally { cleanup }]: the cleanup runs however the body
    ends; the body's outcome stands unless the cleanup itself throws. *)
Definition try_finally {S A} (body : M S A) (cleanup : M S unit) : M S A :=
  fun s =>
    let '(r, s1) := body s in
    match cleanup s1 with
    | (Return _, s2) => (r, s2)
    | (Throw e, s2) => (Throw e, s2)
    end.

(** [try { body } catch (error) { handler(error) }]. *)
Definition try_catch {S A} (body : M S A) (handler : exn -> M S A) : M S A :=
  fun s =>
    match body s with
    | (Return a, s1) => (Return a, s1)
    | (Throw e, s1) => handler e s1
    end.

(** ** Records in the heap *)

(** A reference to a heap object. *)
Abbreviation ref := nat (only parsing).

(** An object is its own enumerable properties in [Object.keys] order (for
    names that are not array indices: the order they were first assigned). *)
Definition object := list (string * jsval).

Definition Object_keys (o : object) : list string := o.*1.
Definition Object_values (o : object) : list jsval := o.*2.

(** [o[k]]: the value of property [k], [undefined] when there is none. *)
Fixpoint get_prop (k : string) (o : object) : jsval :=
  match o with
  | [] => VUndefined
  | (k', v) :: o' => if String.eqb k k' then v else get_prop k o'
  end.

(** [o[k] = v]: overwrites in place, or adds the property last. *)
Fixpoint set_prop (k : string) (v : jsval) (o : object) : object :=
  match o with
  | [] => [(k, v)]
  | (k', v') :: o' =>
      if String.eqb k k' then (k', v) :: o' else (k', v') :: set_prop k v o'
  end.

(** ** The database, seen from the seeder *)

Definition PoolConnection := nat.

(** What the outside observes of a run, in order. *)
Inductive event :=
  | EvOpenConnection (c : PoolConnection)
  | EvQuery (c : PoolConnection) (sql : string) (params : list jsval)
  | EvRelease (c : PoolConnection)
  | EvConsoleLog (line : string).

(** mysql2's [ResultSetHeader], the two fields the seeder reads. *)
Record ResultSetHeader := {
  affectedRows : Z;
  insertId : Z;
}.

(** [DatabaseService] is imported, not defined, by the files at hand: its
    methods are parameters, free to answer (or throw) depending on everything
    that happened before. *)
Record DatabaseService := {
  openConnection : list event -> outcome PoolConnection;
  query : list event -> PoolConnection -> string -> list jsval ->
          outcome ResultSetHeader;
}.

Record world := World {
  heap : gmap ref object;
  trace : list event;
}.

(** The object a reference denotes.  Every reference a program holds denotes
    an object; one the heap has no entry for denotes an object without
    properties. *)
Definition deref (h : gmap ref object) (r : ref) : object := default [] (h !! r).

Definition emit (e : event) : M world unit :=
  fun w => (Return tt, World (heap w) (trace w ++ [e])).

Definition console_log (line : string) : M world unit := emit (EvConsoleLog line).

(** [await this._databaseService.openConnection()] *)
Definition db_openConnection (db : DatabaseService) : M world PoolConnection :=
  fun w =>
    match openConnection db (trace w) with
    | Return c => (Return c, World (heap w) (trace w ++ [EvOpenConnection c]))
    | Throw e => (Throw e, w)
    end.

(** [await this._databaseService.query(connection, sql, ...params)] *)
Definition db_query (db : DatabaseService) (c : PoolConnection)
    (sql : string) (params : list jsval) : M world ResultSetHeader :=
  fun w =>
    (query db (trace w) c sql params,
     World (heap w) (trace w ++ [EvQuery c sql params])).

(** [connection.release()] *)
Definition release (c : PoolConnection) : M world unit := emit (EvRelease c).

(** ** Seeder *)

Definition ESC : string := String (Ascii.ascii_of_nat 27) "".
Definition COLOR_GREEN : string := ESC ++ "[32m".
Definition COLOR_GRAY : string := ESC ++ "[90m".
Definition COLOR_RESET : string := ESC ++ "[0m".

(** [getRecords] / [getRecordsDev]: arbitrary subclass code, which may
    allocate and change records, talk to the database, or throw. *)
Definition Generator := Z -> list (list ref) -> M world (list ref).

(** A concrete seeder: the constructor arguments and what the subclass
    supplies.  [getRecordsDev_override] is [None] for a subclass that
    inherits [getRecordsDev]. *)
Record Seeder := {
  _databaseService : DatabaseService;
  _table : string;
  _devMode : bool;
  getRecords : Generator;
  getRecordsDev_override : option Generator;
}.

(** The inherited body is [return this.getRecords(count, seederRecords)]. *)
Definition getRecordsDev (s : Seeder) : Generator :=
  match getRecordsDev_override s with
  | Some g => g
  | None => fun count seederRecords => getRecords s count seederRecords
  end.

(** A JavaScript number that holds an integer is modelled by that integer
    ([VNum], [affectedRows], [insertId]); its arithmetic is that of binary64.
    [round_binary64 z] is the binary64 value nearest to the integer [z], ties
    to the even significand: up to [2 ^ 53] in absolute value every integer
    is a binary64 value, beyond that only the multiples of the unit in the
    last place of a 53-bit significand are. *)
Definition round_binary64 (z : Z) : Z :=
  (let m := Z.abs z in
   if m <=? 2 ^ 53 then z
   else
     let ulp := 2 ^ (Z.log2 m - 52) in
     let q := m / ulp in
     let r := m mod ulp in
     let up := if 2 * r <? ulp then false
               else if ulp <? 2 * r then true
               else Z.odd q in
     Z.sgn z * ((if up then q + 1 else q) * ulp))%Z.

(** [a + b] on two such numbers: the exact sum, rounded.  The sums taken
    here are of an identifier, a finite binary64 value, and a position in an
    array, below [2 ^ 32]: they never round to infinity. *)
Definition number_add (a b : Z) : Z := round_binary64 (a + b).

(** [records[i].id = id] *)
Definition set_id (r : ref) (id : Z) : M world unit :=
  fun w =>
    (Return tt,
     World (<[r := set_prop "id" (VNum id) (deref (heap w) r)]> (heap w)) (trace w)).

(** [for (let i = i0; i < records.length; i++) records[i].id = insertId + i],
    on the records from position [i0] on. *)
Fixpoint assign_ids (insertId : Z) (i : nat) (records : list ref) : M world unit :=
  match records with
  | [] => mret tt
  | r :: rest =>
      set_id r (number_add insertId (Z.of_nat i));;
      assign_ids insertId (S i) rest
  end.

Definition insert_sql (table : string) (columns : list string) : string :=
  "INSERT INTO `" ++ table ++ "`
                    (" ++ String.concat ", " columns ++ ")
                VALUES
                    ?".

Definition insert_failed (n : nat) : exn :=
  Error ("Failed to insert " ++ pretty n ++ " records").

(** The [try] block of [seed]. *)
Definition seed_insert (s : Seeder) (connection : PoolConnection)
    (records : list ref) : M world (list ref) :=
  console_log (COLOR_GRAY ++ "Seeding records to " ++ _table s ++ "..." ++ COLOR_RESET);;
  columns ← match records with
            | r0 :: _ => gets (fun w => Object_keys (deref (heap w) r0))
            | [] => throw (TypeError "Cannot convert undefined or null to object")
            end;
  values ← gets (fun w => map (fun record => VArr (Object_values (deref (heap w) record))) records);
  result ← db_query (_databaseService s) connection
             (insert_sql (_table s) columns) [VArr values];
  if negb (Z.eqb (affectedRows result) (Z.of_nat (length records)))
  then throw (insert_failed (length records))
  else
    assign_ids (insertId result) 0 records;;
    console_log (COLOR_GREEN ++ "Successfully seeded " ++ pretty (length records)
                 ++ " records" ++ COLOR_RESET);;
    mret records.

(** [Seeder.seed(count, ...seederRecords)] *)
Definition seed (s : Seeder) (count : Z) (seederRecords : list (list ref))
    : M world (list ref) :=
  connection ← db_openConnection (_databaseService s);
  records ← (if _devMode s
             then getRecordsDev s count seederRecords
             else getRecords s count seederRecords);
  if Nat.eqb (length records) 0
  then
    console_log (COLOR_GRAY ++ "No records to seed for " ++ _table s ++ COLOR_RESET);;
    mret []
  else
    try_finally (seed_insert s connection records) (release connection).

Definition FK_CHECKS_OFF : string := "SET FOREIGN_KEY_CHECKS = 0".
Definition FK_CHECKS_ON : string := "SET FOREIGN_KEY_CHECKS = 1".
Definition truncate_sql (table : string) : string := "TRUNCATE TABLE `" ++ table ++ "`".

(** [Seeder.truncate()] *)
Definition truncate (s : Seeder) : M world unit :=
  connection ← db_openConnection (_databaseService s);
  try_finally
    (db_query (_databaseService s) connection FK_CHECKS_OFF [];;
     db_query (_databaseService s) connection (truncate_sql (_table s)) [];;
     db_query (_databaseService s) connection FK_CHECKS_ON [];;
     mret tt)
    (release connection).

(** ** GameService *)

(** A JavaScript [number]: an IEEE 754 binary64 value. *)
Definition number := float.

(** [ToBoolean] on a number: false at [0], [-0] and [NaN] only. *)
Definition truthy_number (x : number) : bool := negb (is_zero x || is_nan x).

(** [ToBoolean] on a string: false at the empty string only. *)
Definition truthy_string (s : string) : bool := negb (String.eqb s "").

(** [GetGamesOptions] comes from [@shared/types]; these are the fields
    [getGames] reads, the optional ones as options. *)
Record GetGamesOptions := {
  page : number;
  limit : number;
  sortBy : option string;
  sort : option string;
  tags : option (list number);
  minPrice : option number;
  maxPrice : option number;
}.

Definition getGameBaseQuery : string :=
  "
            SELECT 
                g.id,
                g.sku,
                g.name,
                g.thumbnail,
                g.description,
                g.price,
                COALESCE(
                    (SELECT JSON_ARRAYAGG(gi.imageUrl)
                     FROM game_images gi
                     WHERE gi.gameId = g.id),
                    JSON_ARRAY()
                ) AS images,
                COALESCE(
                    (SELECT JSON_ARRAYAGG(t.value)
                     FROM games_tags gt
                     JOIN tags t ON gt.tagId = t.id
                     WHERE gt.gameId = g.id),
                    JSON_ARRAY()
                ) AS tags
            FROM games g
        ".

(** [options.sort === 'desc' ? 'DESC' : 'ASC'] *)
Definition sort_direction (options : GetGamesOptions) : string :=
  match sort options with
  | Some s => if String.eqb s "desc" then "DESC" else "ASC"
  | None => "ASC"
  end.

Definition sortByQuery (options : GetGamesOptions) : string :=
  match sortBy options with
  | Some column =>
      if truthy_string column
      then "ORDER BY g." ++ column ++ " " ++ sort_direction options
      else "ORDER BY g.name " ++ sort_direction options
  | None => "ORDER BY g.name " ++ sort_direction options
  end.

(** The three locals the filters build up. *)
Record filters := {
  whereClause : string;
  whereClauseValues : list number;
  tagJoin : string;
}.

(** [whereClause += whereClause ? ' AND ' : 'WHERE '; whereClause += condition] *)
Definition add_condition (whereClause condition : string) : string :=
  (whereClause ++ (if truthy_string whereClause then " AND " else "WHERE ")) ++ condition.

(** [if (options.tags && options.tags.length > 0) { ... }] *)
Definition filter_tags (options : GetGamesOptions) (f : filters) : filters :=
  match tags options with
  | Some (t :: ts) =>
      {| tagJoin := "JOIN games_tags gt ON g.id = gt.gameId";
         whereClause :=
           add_condition (whereClause f)
             ("gt.tagId IN (" ++ String.concat "," (map (fun _ => "?") (t :: ts)) ++ ")");
         whereClauseValues := whereClauseValues f ++ (t :: ts) |}
  | _ => f
  end.

(** [if (options.minPrice) { ... }] *)
Definition filter_minPrice (options : GetGamesOptions) (f : filters) : filters :=
  match minPrice options with
  | Some p =>
      if truthy_number p
      then {| tagJoin := tagJoin f;
              whereClause := add_condition (whereClause f) "g.price >= ?";
              whereClauseValues := whereClauseValues f ++ [p] |}
      else f
  | None => f
  end.

(** [if (options.maxPrice) { ... }] *)
Definition filter_maxPrice (options : GetGamesOptions) (f : filters) : filters :=
  match maxPrice options with
  | Some p =>
      if truthy_number p
      then {| tagJoin := tagJoin f;
              whereClause := add_condition (whereClause f) "g.price <= ?";
              whereClauseValues := whereClauseValues f ++ [p] |}
      else f
  | None => f
  end.

Definition getGames_filters (options : GetGamesOptions) : filters :=
  filter_maxPrice options
    (filter_minPrice options
       (filter_tags options
          {| whereClause := ""; whereClauseValues := []; tagJoin := "" |})).

(** A statement as [getGames] hands it to [DatabaseService.query]: the text
    and the values for its placeholders. *)
Record statement := {
  sql_text : string;
  sql_params : list number;
}.

(** The page query and the count query of [getGames]. *)
Definition getGames_statements (options : GetGamesOptions) : statement * statement :=
  let offset := ((page options - 1) * limit options)%float in
  let f := getGames_filters options in
  ({| sql_text := "
                " ++ getGameBaseQuery ++ "
                " ++ tagJoin f ++ "
                " ++ whereClause f ++ "
                GROUP BY g.id
                " ++ sortByQuery options ++ "
                LIMIT ?
                OFFSET ?
            ";
      sql_params := whereClauseValues f ++ [limit options; offset] |},
   {| sql_text := "
                SELECT COUNT(DISTINCT g.id) AS totalCount
                FROM games g
                " ++ tagJoin f ++ "
                " ++ whereClause f ++ "
            ";
      sql_params := whereClauseValues f |}).

(** ** CartPageComponent *)

(** [CartItem] comes from [@shared/types]; these are the fields the
    component reads. *)
Record CartItem := {
  gameId : number;
  name : string;
  thumbnail : string;
  description : string;
  price : number;
  quantity : number;
}.

(** What the page does that is visible outside the component. *)
Inductive web_event :=
  | EvGetCart
  | EvUpdateCart (items : list CartItem)
  | EvDeleteCartItem (gameId : number)
  | EvConsoleError (message : string) (error : exn).

(** [CartService] is imported, not defined, by the component: each call may
    resolve or reject depending on everything that happened before. *)
Record CartService := {
  getCart : list web_event -> outcome (list CartItem);
  updateCart : list web_event -> list CartItem -> outcome unit;
  deleteCartItem : list web_event -> number -> outcome unit;
}.

(** The footer [render] builds under the list: the total (before
    [toFixed(2)]) with the checkout button, or the empty-cart message with
    the shop-now button. *)
Inductive cart_footer :=
  | CartTotal (total : number)
  | CartEmpty.

(** The shadow tree, without its styling: one [<li>] per item, each with the
    index its remove button passes to [removeItem], and the footer. *)
Record cart_view := {
  rows : list (nat * CartItem);
  footer : cart_footer;
}.

Record CartPageComponent := {
  items : list CartItem;
  shadowRoot : option cart_view;
  calls : list web_event;
}.

Definition web_emit (e : web_event) : M CartPageComponent unit :=
  fun c => (Return tt,
            {| items := items c; shadowRoot := shadowRoot c; calls := calls c ++ [e] |}).

(** [console.error(message, error)] *)
Definition console_error (message : string) (error : exn) : M CartPageComponent unit :=
  web_emit (EvConsoleError message error).

(** [await this._cartService.updateCart(items)] *)
Definition call_updateCart (cs : CartService) (l : list CartItem) : M CartPageComponent unit :=
  fun c => (updateCart cs (calls c) l,
            {| items := items c; shadowRoot := shadowRoot c;
               calls := calls c ++ [EvUpdateCart l] |}).

(** [await this._cartService.deleteCartItem(gameId)] *)
Definition call_deleteCartItem (cs : CartService) (g : number) : M CartPageComponent unit :=
  fun c => (deleteCartItem cs (calls c) g,
            {| items := items c; shadowRoot := shadowRoot c;
               calls := calls c ++ [EvDeleteCartItem g] |}).

(** [items.reduce((sum, item) => sum + item.price * item.quantity, 0)] *)
Definition cart_total (l : list CartItem) : number :=
  fold_left (fun sum item => (sum + price item * quantity item)%float) l 0%float.

Definition build_view (l : list CartItem) : cart_view :=
  {| rows := imap (fun index item => (index, item)) l;
     footer := if Nat.ltb 0 (length l) then CartTotal (cart_total l) else CartEmpty |}.

(** [render()]: nothing without a shadow root, else the tree is rebuilt from
    [this.items]. *)
Definition render : M CartPageComponent unit :=
  fun c =>
    match shadowRoot c with
    | None => (Return tt, c)
    | Some _ =>
        (Return tt,
         {| items := items c; shadowRoot := Some (build_view (items c)); calls := calls c |})
    end.

(** [updateBackendCart()] *)
Definition updateBackendCart (cs : CartService) : M CartPageComponent unit :=
  try_catch
    (fun c => call_updateCart cs (items c) c)
    (fun error => console_error "Fout bij bijwerken van winkelwagen:" error).

(** [this.items.splice(index, 1)] for an index that is a natural number:
    beyond the end nothing is removed. *)
Definition splice1 (index : nat) : M CartPageComponent unit :=
  fun c => (Return tt,
            {| items := delete index (items c); shadowRoot := shadowRoot c;
               calls := calls c |}).

(** [removeItem(index)].  The only caller is the remove button [render]
    binds to a [forEach] index, so [index] is a natural number; at an index
    beyond the end [item] is [undefined] and reading [item.gameId] throws
    inside the [try]. *)
Definition removeItem (cs : CartService) (index : nat) : M CartPageComponent unit :=
  item ← gets (fun c => items c !! index);
  splice1 index;;
  try_catch
    (match item with
     | Some it => call_deleteCartItem cs (gameId it)
     | None => throw (TypeError "Cannot read properties of undefined (reading 'gameId')")
     end)
    (fun error => console_error "Fout bij verwijderen van item uit winkelwagen:" error);;
  updateBackendCart cs;;
  render.

(** ** Observations on runs, and sample collaborators *)


(** Was the statement [sql] sent to the database during [tr]? *)
Definition issued (sql : string) (tr : list event) : bool :=
  existsb (fun e => match e with
                    | EvQuery _ q _ => String.eqb q sql
                    | _ => false
                    end) tr.

(** Was some [INSERT] statement sent during [tr]? *)
Definition issued_insert (tr : list event) : bool :=
  existsb (fun e => match e with
                    | EvQuery _ q _ => String.prefix "INSERT" q
                    | _ => false
                    end) tr.

(** Was connection [c] released during [tr]? *)
Definition released (c : PoolConnection) (tr : list event) : bool :=
  existsb (fun e => match e with
                    | EvRelease c' => Nat.eqb c c'
                    | _ => false
                    end) tr.

(** The generator [seed] calls: [this._devMode ? getRecordsDev : getRecords]. *)
Definition selected_generator (s : Seeder) : Generator :=
  if _devMode s then getRecordsDev s else getRecords s.

(** The world right after [openConnection] handed out [c]. *)
Definition opened (w : world) (c : PoolConnection) : world :=
  World (heap w) (trace w ++ [EvOpenConnection c]).

Definition seeding_line (s : Seeder) : string :=
  COLOR_GRAY ++ "Seeding records to " ++ _table s ++ "..." ++ COLOR_RESET.

Definition nothing_to_seed_line (s : Seeder) : string :=
  COLOR_GRAY ++ "No records to seed for " ++ _table s ++ COLOR_RESET.

(** The column list and the row tuples of the insert, read off the heap. *)
Definition insert_columns (h : gmap ref object) (records : list ref) : list string :=
  match records with
  | r0 :: _ => Object_keys (deref h r0)
  | [] => []
  end.

Definition insert_rows (h : gmap ref object) (records : list ref) : list jsval :=
  map (fun record => VArr (Object_values (deref h record))) records.

(** The insert event of a seeding run that generated [records] and left the
    world [w1]. *)
Definition insert_event (s : Seeder) (c : PoolConnection) (records : list ref)
    (w1 : world) : event :=
  EvQuery c (insert_sql (_table s) (insert_columns (heap w1) records))
    [VArr (insert_rows (heap w1) records)].

(** The database's answer to that insert. *)
Definition insert_answer (s : Seeder) (c : PoolConnection) (records : list ref)
    (w1 : world) : outcome ResultSetHeader :=
  query (_databaseService s) (trace w1 ++ [EvConsoleLog (seeding_line s)]) c
    (insert_sql (_table s) (insert_columns (heap w1) records))
    [VArr (insert_rows (heap w1) records)].

(** The tuple that holds the values of object [o] under each of [columns],
    in the order of [columns]. *)
Definition positional (columns : list string) (o : object) : jsval :=
  VArr (map (fun k => get_prop k o) columns).

(** A database that hands out connection 1 and acknowledges every row of a
    bulk insert, numbering them from [start]. *)
Definition acknowledging (start : Z) : DatabaseService := {|
  openConnection := fun _ => Return 1%nat;
  query := fun _ _ _ params =>
    match params with
    | [VArr rows] => Return {| affectedRows := Z.of_nat (length rows); insertId := start |}
    | _ => Return {| affectedRows := 0; insertId := 0 |}
    end;
|}.

(** A database on which [TRUNCATE] fails. *)
Definition refusing_truncate : DatabaseService := {|
  openConnection := fun _ => Return 1%nat;
  query := fun _ _ sql _ =>
    if String.prefix "TRUNCATE" sql
    then Throw (Error "Cannot truncate a table referenced in a foreign key constraint")
    else Return {| affectedRows := 0; insertId := 0 |};
|}.

(** A database that reports one affected row whatever it was sent. *)
Definition one_row_only (start : Z) : DatabaseService := {|
  openConnection := fun _ => Return 1%nat;
  query := fun _ _ _ _ => Return {| affectedRows := 1; insertId := start |};
|}.

(** A generator that builds the given objects at the given references and
    returns them, whatever [count] is. *)
Definition creating (objs : list (ref * object)) : Generator :=
  fun _ _ w =>
    (Return objs.*1,
     World (foldr (fun ro h => <[ro.1 := ro.2]> h) (heap w) objs) (trace w)).

(** A generator that builds one object and returns it twice. *)
Definition repeating (r : ref) (o : object) : Generator :=
  fun _ _ w => (Return [r; r], World (<[r := o]> (heap w)) (trace w)).

(** A generator that hands back the records of the upstream groups. *)
Definition reusing_upstream : Generator :=
  fun _ seederRecords => mret (concat seederRecords).

(** A generator that fails. *)
Definition failing (e : exn) : Generator := fun _ _ => throw e.

(** A seeder that inherits [getRecordsDev]. *)
Definition plain_seeder (db : DatabaseService) (table : string) (devMode : bool)
    (g : Generator) : Seeder := {|
  _databaseService := db;
  _table := table;
  _devMode := devMode;
  getRecords := g;
  getRecordsDev_override := None;
|}.

Definition empty_world : world := World ∅ [].

Definition game (n : string) (p : Z) : object := [("name", VStr n); ("price", VNum p)].

(** The heap once the identifier loop has run over [records], started at
    position [i]. *)
Fixpoint with_ids (insertId : Z) (i : nat) (records : list ref)
    (h : gmap ref object) : gmap ref object :=
  match records with
  | [] => h
  | r :: rest =>
      with_ids insertId (S i) rest
        (<[r := set_prop "id" (VNum (number_add insertId (Z.of_nat i))) (deref h r)]> h)
  end.

Definition seeded_line (n : nat) : string :=
  COLOR_GREEN ++ "Successfully seeded " ++ pretty n ++ " records" ++ COLOR_RESET.

(** [{ ...options, minPrice: bound }], [bound] being [None] for an options
    object without the field. *)
Definition with_minPrice (bound : option number) (options : GetGamesOptions)
    : GetGamesOptions := {|
  page := page options;
  limit := limit options;
  sortBy := sortBy options;
  sort := sort options;
  tags := tags options;
  minPrice := bound;
  maxPrice := maxPrice options;
|}.

(** [{ ...options, maxPrice: bound }] *)
Definition with_maxPrice (bound : option number) (options : GetGamesOptions)
    : GetGamesOptions := {|
  page := page options;
  limit := limit options;
  sortBy := sortBy options;
  sort := sort options;
  tags := tags options;
  minPrice := minPrice options;
  maxPrice := bound;
|}.

(** The second page of twenty games tagged 3 or 5, cheapest first. *)
Definition tagged_page : GetGamesOptions := {|
  page := 2%float;
  limit := 20%float;
  sortBy := Some "price";
  sort := Some "asc";
  tags := Some [3%float; 5%float];
  minPrice := None;
  maxPrice := None;
|}.

(** A cart service on which every deletion is rejected. *)
Definition rejecting_deletes : CartService := {|
  getCart := fun _ => Return [];
  updateCart := fun _ _ => Return tt;
  deleteCartItem := fun _ _ => Throw (Error "Failed to delete cart item");
|}.

Definition cart_item (id : number) (title : string) (cost : number) : CartItem := {|
  gameId := id;
  name := title;
  thumbnail := "/images/" ++ title ++ ".png";
  description := "";
  price := cost;
  quantity := 1%float;
|}.

(** A rendered page that shows two games. *)
Definition two_games : CartPageComponent :=
  let l := [cart_item 7%float "chess" 10%float; cart_item 9%float "go" 15%float] in
  {| items := l; shadowRoot := Some (build_view l); calls := [EvGetCart] |}.

Definition delete_failed_line : string := "Fout bij verwijderen van item uit winkelwagen:".

(** ** GameService, the calls to the database *)

Module GameQueries.

(** A value bound to a placeholder. *)
Inductive sql_value :=
  | SqlNumber (n : number)
  | SqlString (s : string).

(** What the database sees of a [GameService] call. *)
Inductive game_event :=
  | EvAcquire (c : PoolConnection)
  | EvSelect (c : PoolConnection) (sql : string) (params : list sql_value)
  | EvGiveBack (c : PoolConnection).

(** One row of the count query, [{ totalCount: number }]. *)
Record CountRow := {
  totalCount : number;
}.

(** [DatabaseService] as [GameService] uses it: [query<Game[]>] and
    [query<{ totalCount: number }[]>] are parameters, one per result type;
    [Game] comes from [@shared/types] and is a parameter too. *)
Record GameDatabase (Game : Type) := {
  acquire : list game_event -> outcome PoolConnection;
  select_games : list game_event -> PoolConnection -> string -> list sql_value ->
                 outcome (list Game);
  select_counts : list game_event -> PoolConnection -> string -> list sql_value ->
                  outcome (list CountRow);
}.
Arguments acquire {Game} _ _.
Arguments select_games {Game} _ _ _ _ _.
Arguments select_counts {Game} _ _ _ _ _.

Record Pagination := {
  totalItems : number;
  totalPages : number;
  currentPage : number;
  itemsPerPage : number;
}.

(** [PaginatedResponse<T>], as [getGames] builds it. *)
Record PaginatedResponse (T : Type) := {
  items : list T;
  pagination : Pagination;
}.
Arguments items {T} _.
Arguments pagination {T} _.

Definition DQUOTE : string := String (Ascii.ascii_of_nat 34) "".

Section calls.
Context {Game : Type} (db : GameDatabase Game).

(** [await this._databaseService.openConnection()] *)
Definition openConnection : M (list game_event) PoolConnection :=
  fun tr =>
    match acquire db tr with
    | Return c => (Return c, (tr ++ [EvAcquire c])%list)
    | Throw e => (Throw e, tr)
    end.

(** [await this._databaseService.query<Game[]>(connection, sql, ...params)] *)
Definition query_games (c : PoolConnection) (sql : string) (params : list sql_value)
    : M (list game_event) (list Game) :=
  fun tr => (select_games db tr c sql params, (tr ++ [EvSelect c sql params])%list).

(** [await this._databaseService.query<{ totalCount: number }[]>(...)] *)
Definition query_counts (c : PoolConnection) (sql : string) (params : list sql_value)
    : M (list game_event) (list CountRow) :=
  fun tr => (select_counts db tr c sql params, (tr ++ [EvSelect c sql params])%list).

(** [connection.release()] *)
Definition release (c : PoolConnection) : M (list game_event) unit :=
  fun tr => (Return tt, (tr ++ [EvGiveBack c])%list).

(** [GameService.getGames(options)].  [Math_ceil] is the engine's
    [Math.ceil], a parameter. *)
Definition getGames (Math_ceil : number -> number) (options : GetGamesOptions)
    : M (list game_event) (PaginatedResponse Game) :=
  connection ← openConnection;
  let statements := getGames_statements options in
  try_finally
    (games ← query_games connection (sql_text statements.1)
               (SqlNumber <$> sql_params statements.1);
     countResult ← query_counts connection (sql_text statements.2)
                     (SqlNumber <$> sql_params statements.2);
     match countResult with
     | first :: _ =>
         mret {| items := games;
                 pagination := {|
                   totalItems := totalCount first;
                   totalPages := Math_ceil (totalCount first / limit options)%float;
                   currentPage := page options;
                   itemsPerPage := limit options |} |}
     | [] => throw (TypeError "Cannot read properties of undefined (reading 'totalCount')")
     end)
    (release connection).

(** The statement of [getOwnedGames(userId, gameId?)]: its text and its
    values. *)
Definition getOwnedGames_statement (userId : number) (gameId : option number)
    : string * list sql_value :=
  let wanted := match gameId with
                | Some g => truthy_number g
                | None => false
                end in
  let gameIdCondition := if wanted then "AND g.id = ?" else "" in
  ("
                " ++ getGameBaseQuery ++ "
                JOIN orders_games og ON g.id = og.gameId
                JOIN orders o ON og.orderId = o.id
                WHERE o.userId = ? AND o.status = " ++ DQUOTE ++ "paid" ++ DQUOTE ++ " " ++ gameIdCondition ++ "
                GROUP BY g.id
            ",
   ([SqlNumber userId]
    ++ match gameId with
       | Some g => if truthy_number g then [SqlNumber g] else []
       | None => []
       end)%list).

(** [GameService.getOwnedGames(userId, gameId?)] *)
Definition getOwnedGames (userId : number) (gameId : option number)
    : M (list game_event) (list Game) :=
  connection ← openConnection;
  try_finally
    (let statement := getOwnedGames_statement userId gameId in
     query_games connection statement.1 statement.2)
    (release connection).

Definition searchGames_sql : string :=
  "
                " ++ getGameBaseQuery ++ "
                WHERE g.name LIKE ?
                GROUP BY g.id
                ORDER BY g.name
            ".

(** [GameService.searchGames(query)] *)
Definition searchGames (query : string) : M (list game_event) (list Game) :=
  connection ← openConnection;
  try_finally
    (query_games connection searchGames_sql [SqlString ("%" ++ query ++ "%")])
    (release connection).

(** The statement of [executeGameByIdQuery(id)]; [Number_toString] is the
    engine's conversion of a number inside a template literal, a parameter. *)
Definition gameById_sql (Number_toString : number -> string) (id : number) : string :=
  "
            SELECT 
                name,
                thumbnail,
                description,
                price
            FROM GAMES
            WHERE
                id = " ++ DQUOTE ++ Number_toString id ++ DQUOTE ++ "
        ".

(** [executeGameByIdQuery(id)] *)
Definition executeGameByIdQuery (Number_toString : number -> string) (id : number)
    : M (list game_event) (list Game) :=
  connection ← openConnection;
  try_finally
    (query_games connection (gameById_sql Number_toString id) [])
    (release connection).

(** [GameService.getGameById(id)] *)
Definition getGameById (Number_toString : number -> string) (id : number)
    : M (list game_event) (list Game) :=
  executeGameByIdQuery Number_toString id.

Definition fiveRandomGames_sql : string :=
  "
                " ++ getGameBaseQuery ++ "
                JOIN games_tags gt ON g.id = gt.gameId
                WHERE gt.tagId IN (3, 5)
                GROUP BY g.id
                ORDER BY RAND()
                LIMIT 5;
        ".

(** [executeFiveRandomGamesQuery()] *)
Definition executeFiveRandomGamesQuery : M (list game_event) (list Game) :=
  connection ← openConnection;
  try_finally
    (query_games connection fiveRandomGames_sql [])
    (release connection).

(** [GameService.getFiveRandomGames()] *)
Definition getFiveRandomGames : M (list game_event) (list Game) :=
  executeFiveRandomGamesQuery.

End calls.

(** Is every event a statement sent on connection [c]? *)
Definition only_selects_on (c : PoolConnection) (evs : list game_event) : bool :=
  forallb (fun e => match e with
                    | EvSelect c' _ _ => Nat.eqb c c'
                    | _ => false
                    end) evs.

(** A database of integers-as-games that answers the page query with two
    rows and the count query with one row. *)
Definition two_of_seven : GameDatabase nat := {|
  acquire := fun _ => Return 4%nat;
  select_games := fun _ _ _ _ => Return [11%nat; 12%nat];
  select_counts := fun _ _ _ _ => Return [{| totalCount := 7%float |}];
|}.

(** A database whose queries all fail. *)
Definition unreachable_tables : GameDatabase nat := {|
  acquire := fun _ => Return 4%nat;
  select_games := fun _ _ _ _ => Throw (Error "Table 'games' doesn't exist");
  select_counts := fun _ _ _ _ => Throw (Error "Table 'games' doesn't exist");
|}.

(** A database whose count query comes back without a row. *)
Definition countless : GameDatabase nat := {|
  acquire := fun _ => Return 4%nat;
  select_games := fun _ _ _ _ => Return [11%nat; 12%nat];
  select_counts := fun _ _ _ _ => Return [];
|}.

(** A database that cannot hand out a connection. *)
Definition no_connection : GameDatabase nat := {|
  acquire := fun _ => Throw (Error "Too many connections");
  select_games := fun _ _ _ _ => Return [];
  select_counts := fun _ _ _ _ => Return [];
|}.

End GameQueries.

(** ** Placeholders *)

(** How often the character [a] occurs in [s]. *)
Fixpoint count_char (a : Ascii.ascii) (s : string) : nat :=
  match s with
  | EmptyString => 0%nat
  | String b rest => ((if Ascii.eqb a b then 1 else 0) + count_char a rest)%nat
  end.

(** The number of [?] placeholders of a statement text. *)
Definition placeholders (s : string) : nat := count_char (Ascii.ascii_of_nat 63) s.

(** [{ ...options, tags: l }] *)
Definition with_tags (l : option (list number)) (options : GetGamesOptions)
    : GetGamesOptions := {|
  page := page options;
  limit := limit options;
  sortBy := sortBy options;
  sort := sort options;
  tags := l;
  minPrice := minPrice options;
  maxPrice := maxPrice options;
|}.

(** ** CartPageComponent, the first rendering *)

(** [this.attachShadow({ mode: 'open' })]: an element that already has a
    shadow root refuses a second one.  The new tree stays empty until
    [render] fills it and nothing reads it before; it is kept as the view of
    an empty list. *)
Definition attachShadow : M CartPageComponent unit :=
  fun c =>
    match shadowRoot c with
    | None => (Return tt,
               {| items := items c; shadowRoot := Some (build_view []); calls := calls c |})
    | Some _ => (Throw (Error "Failed to execute 'attachShadow' on 'Element': Shadow root cannot be created on a host which already hosts a shadow tree."), c)
    end.

(** [await this._cartService.getCart()] *)
Definition call_getCart (cs : CartService) : M CartPageComponent (list CartItem) :=
  fun c => (getCart cs (calls c),
            {| items := items c; shadowRoot := shadowRoot c; calls := calls c ++ [EvGetCart] |}).

(** [this.items = l] *)
Definition set_items (l : list CartItem) : M CartPageComponent unit :=
  fun c => (Return tt, {| items := l; shadowRoot := shadowRoot c; calls := calls c |}).

Definition cart_failed_line : string := "Kan winkelwagen niet ophalen:".

(** [connectedCallback()] *)
Definition connectedCallback (cs : CartService) : M CartPageComponent unit :=
  attachShadow;;
  try_catch
    (l ← call_getCart cs; set_items l)
    (fun error => console_error cart_failed_line error;; set_items []);;
  render.

(** A component that was just created. *)
Definition new_component : CartPageComponent :=
  {| items := []; shadowRoot := None; calls := [] |}.

(** A cart service that cannot be reached. *)
Definition offline : CartService := {|
  getCart := fun _ => Throw (Error "Failed to fetch");
  updateCart := fun _ _ => Throw (Error "Failed to fetch");
  deleteCartItem := fun _ _ => Throw (Error "Failed to fetch");
|}.

(** A database that cannot hand out a connection. *)
Definition pool_exhausted : DatabaseService := {|
  openConnection := fun _ => Throw (Error "Too many connections");
  query := fun _ _ _ _ => Return {| affectedRows := 0; insertId := 0 |};
|}.

(** A database on which every statement fails. *)
Definition rejecting_statements : DatabaseService := {|
  openConnection := fun _ => Return 1%nat;
  query := fun _ _ _ _ => Throw (Error "Unknown column 'price' in 'field list'");
|}.

(** Is every event a console line? *)
Definition only_console_lines (evs : list event) : bool :=
  forallb (fun e => match e with
                    | EvConsoleLog _ => true
                    | _ => false
                    end) evs.


(** * Properties *)

Local Open Scope list_scope.

(** ** Stepping through a method *)

Lemma bind_Return {S A B} (m : M S A) (k : A -> M S B) s a s' :
  m s = (Return a, s') -> (m ≫= k) s = k a s'.
Proof. intros H. unfold mbind, M_bind. by rewrite H. Qed.

Lemma bind_Throw {S A B} (m : M S A) (k : A -> M S B) s e s' :
  m s = (Throw e, s') -> (m ≫= k) s = (Throw e, s').
Proof. intros H. unfold mbind, M_bind. by rewrite H. Qed.

Lemma db_openConnection_Return db w c :
  openConnection db (trace w) = Return c ->
  db_openConnection db w = (Return c, opened w c).
Proof. intros H. unfold db_openConnection. by rewrite H. Qed.

(** ** truncate *)

(** C1, evaluated where it fails.  On a database that refuses the
    [TRUNCATE], the run disables enforcement, fails, releases the connection
    and rethrows: the statement that enables enforcement again is never
    sent, and the connection goes back to the pool with enforcement off. *)
Lemma truncate_failure_leaves_enforcement_off :
  let run := truncate (plain_seeder refusing_truncate "games" false (creating [])) empty_world in
  run.1 = Throw (Error "Cannot truncate a table referenced in a foreign key constraint")
  /\ trace run.2 = [EvOpenConnection 1%nat;
                    EvQuery 1%nat "SET FOREIGN_KEY_CHECKS = 0" [];
                    EvQuery 1%nat "TRUNCATE TABLE `games`" [];
                    EvRelease 1%nat]
  /\ issued FK_CHECKS_OFF (trace run.2) = true
  /\ issued FK_CHECKS_ON (trace run.2) = false.
Proof. repeat split; reflexivity. Qed.

(** The same on every database: when enforcement was disabled and the
    row-removal statement throws [e], [truncate] throws [e] after exactly
    the disable statement, the row-removal statement and the release. *)
Lemma truncate_skips_enable_on_failure (s : Seeder) (w : world) (c : PoolConnection) h e :
  openConnection (_databaseService s) (trace w) = Return c ->
  query (_databaseService s) (trace w ++ [EvOpenConnection c]) c FK_CHECKS_OFF []
  = Return h ->
  query (_databaseService s)
    (trace w ++ [EvOpenConnection c; EvQuery c FK_CHECKS_OFF []])
    c (truncate_sql (_table s)) []
  = Throw e ->
  truncate s w
  = (Throw e,
     World (heap w)
       (trace w ++ [EvOpenConnection c; EvQuery c FK_CHECKS_OFF [];
                    EvQuery c (truncate_sql (_table s)) []; EvRelease c])).
Proof.
  intros Hopen Hoff Htruncate. unfold truncate.
  rewrite (bind_Return _ _ _ _ _ (db_openConnection_Return _ _ _ Hopen)).
  unfold try_finally, mbind, M_bind, db_query, release, emit, opened; simpl.
  rewrite <- ?app_assoc. simpl. rewrite Hoff, Htruncate. simpl.
  by rewrite <- ?app_assoc.
Qed.

(** When the three statements succeed, [truncate] returns after sending
    them in order and releasing the connection. *)
Lemma truncate_success (s : Seeder) (w : world) (c : PoolConnection) h0 h1 h2 :
  openConnection (_databaseService s) (trace w) = Return c ->
  query (_databaseService s) (trace w ++ [EvOpenConnection c]) c FK_CHECKS_OFF []
  = Return h0 ->
  query (_databaseService s)
    (trace w ++ [EvOpenConnection c; EvQuery c FK_CHECKS_OFF []])
    c (truncate_sql (_table s)) []
  = Return h1 ->
  query (_databaseService s)
    (trace w ++ [EvOpenConnection c; EvQuery c FK_CHECKS_OFF [];
                 EvQuery c (truncate_sql (_table s)) []])
    c FK_CHECKS_ON []
  = Return h2 ->
  truncate s w
  = (Return tt,
     World (heap w)
       (trace w ++ [EvOpenConnection c; EvQuery c FK_CHECKS_OFF [];
                    EvQuery c (truncate_sql (_table s)) [];
                    EvQuery c FK_CHECKS_ON []; EvRelease c])).
Proof.
  intros Hopen Hoff Htruncate Hon. unfold truncate.
  rewrite (bind_Return _ _ _ _ _ (db_openConnection_Return _ _ _ Hopen)).
  unfold try_finally, mbind, M_bind, db_query, release, emit, opened; simpl.
  rewrite <- ?app_assoc. simpl. rewrite Hoff, Htruncate, Hon. simpl.
  by rewrite <- ?app_assoc.
Qed.

(** ** seed *)

Section seed_steps.
Context (s : Seeder) (count : Z) (seederRecords : list (list ref)).
Context (w : world) (c : PoolConnection).
Hypothesis Hopen : openConnection (_databaseService s) (trace w) = Return c.

(** [seed] up to the point where the generator has answered. *)
Lemma seed_after_generator out w1 :
  selected_generator s count seederRecords (opened w c) = (out, w1) ->
  seed s count seederRecords w =
    match out with
    | Throw e => (Throw e, w1)
    | Return records =>
        if Nat.eqb (length records) 0
        then (Return [], World (heap w1) (trace w1 ++ [EvConsoleLog (nothing_to_seed_line s)]))
        else try_finally (seed_insert s c records) (release c) w1
    end.
Proof.
  intros Hgen. unfold seed.
  rewrite (bind_Return _ _ _ _ _ (db_openConnection_Return _ _ _ Hopen)).
  unfold selected_generator in Hgen.
  destruct (_devMode s); destruct out as [records|e].
  all: first [ rewrite (bind_Return _ _ _ _ _ Hgen);
               destruct (Nat.eqb (length records) 0); reflexivity
             | by rewrite (bind_Throw _ _ _ _ _ Hgen) ].
Qed.
End seed_steps.

Lemma assign_ids_run insertId records : forall i w,
  assign_ids insertId i records w
  = (Return tt, World (with_ids insertId i records (heap w)) (trace w)).
Proof.
  induction records as [|r rest IH]; intros i w.
  - by destruct w.
  - simpl. unfold mbind, M_bind, set_id. rewrite IH. reflexivity.
Qed.

#[local] Arguments assign_ids : simpl never.

(** The [try] block of [seed] on a batch that is not empty: the insert is
    sent, and what follows depends on the database's answer. *)
Lemma seed_insert_run s c r0 rest w1 :
  let records := r0 :: rest in
  let sent := (trace w1 ++ [EvConsoleLog (seeding_line s); insert_event s c records w1])%list in
  seed_insert s c records w1 =
    match insert_answer s c records w1 with
    | Throw e => (Throw e, World (heap w1) sent)
    | Return result =>
        if Z.eqb (affectedRows result) (Z.of_nat (length records))
        then (Return records,
              World (with_ids (insertId result) 0 records (heap w1))
                    (sent ++ [EvConsoleLog (seeded_line (length records))]))
        else (Throw (insert_failed (length records)), World (heap w1) sent)
    end.
Proof.
  intros records sent. subst sent records.
  unfold seed_insert, insert_answer, insert_event, insert_columns, insert_rows, seeding_line.
  unfold console_log, emit, gets, db_query, throw, mbind, M_bind, mret, M_ret. simpl.
  destruct (query _ _ _ _ _) as [result|e]; simpl.
  - destruct (Z.eqb _ _); simpl.
    + rewrite assign_ids_run. simpl. rewrite <- !app_assoc. reflexivity.
    + rewrite <- !app_assoc. reflexivity.
  - rewrite <- !app_assoc. reflexivity.
Qed.

(** Records the loop does not visit keep their heap entry. *)
Lemma with_ids_other insertId records : forall i h r,
  r ∉ records -> with_ids insertId i records h !! r = h !! r.
Proof.
  induction records as [|r' rest IH]; intros i h r Hr; [done|].
  apply not_elem_of_cons in Hr as [Hne Hr]. simpl.
  rewrite IH by done. by rewrite lookup_insert_ne.
Qed.

(** Within the safe integers the rounding does nothing. *)
Lemma number_add_exact a b : Z.abs (a + b) <= 2 ^ 53 -> number_add a b = a + b.
Proof.
  intros H. unfold number_add, round_binary64. cbv zeta.
  apply Z.leb_le in H. by rewrite H.
Qed.

(** The rounding is that of the machine's binary64 numbers: beyond [2 ^ 53]
    consecutive integers collapse, ties going to the even significand. *)
Lemma number_add_rounds_like_binary64 :
  (9007199254740992 + 1)%float = 9007199254740992%float
  /\ number_add 9007199254740992 1 = 9007199254740992
  /\ (9007199254740992 + 2)%float = 9007199254740994%float
  /\ number_add 9007199254740992 2 = 9007199254740994
  /\ (9007199254740992 + 3)%float = 9007199254740996%float
  /\ number_add 9007199254740992 3 = 9007199254740996
  /\ (-9007199254740992 + -3)%float = (-9007199254740996)%float
  /\ number_add (-9007199254740992) (-3) = -9007199254740996
  /\ (1152921504606846976 + 129)%float = 1152921504606847232%float
  /\ number_add 1152921504606846976 129 = 1152921504606847232.
Proof. repeat split; reflexivity. Qed.

(** A record visited once, at position [j], gets [insertId + j] (as
    JavaScript adds) as its [id] and keeps its other properties. *)
Lemma with_ids_at insertId records : forall i h j r,
  NoDup records -> records !! j = Some r ->
  deref (with_ids insertId i records h) r
  = set_prop "id" (VNum (number_add insertId (Z.of_nat (i + j)))) (deref h r).
Proof.
  induction records as [|r' rest IH]; intros i h j r Hnd Hj; [done|].
  apply NoDup_cons in Hnd as [Hnotin Hnd].
  destruct j as [|j]; simpl in Hj; cbn [with_ids].
  - injection Hj as ->. unfold deref at 1.
    rewrite with_ids_other by done. rewrite lookup_insert_eq. simpl.
    by rewrite Nat.add_0_r.
  - rewrite (IH (S i) _ j r Hnd Hj).
    assert (r' ≠ r) as Hne.
    { intros ->. apply Hnotin. by eapply list_elem_of_lookup_2. }
    unfold deref. rewrite lookup_insert_ne by done.
    by rewrite Nat.add_succ_r.
Qed.

Lemma get_prop_set_prop k v o : get_prop k (set_prop k v o) = v.
Proof.
  induction o as [|[k' v'] o IH]; simpl.
  - by rewrite String.eqb_refl.
  - destruct (String.eqb k k') eqn:E; simpl; rewrite E; [done | apply IH].
Qed.

Lemma get_prop_set_prop_ne k k' v o :
  k ≠ k' -> get_prop k' (set_prop k v o) = get_prop k' o.
Proof.
  intros Hne. induction o as [|[k0 v0] o IH]; simpl.
  - destruct (String.eqb k' k) eqn:E; [|done].
    apply String.eqb_eq in E. congruence.
  - destruct (String.eqb k k0) eqn:E; simpl.
    + apply String.eqb_eq in E as <-.
      destruct (String.eqb k' k) eqn:E'; [|done].
      apply String.eqb_eq in E'. congruence.
    + by rewrite IH.
Qed.

(** The [try]/[finally] of [seed] on a batch that is not empty: as
    [seed_insert_run], with the release as the last event on every branch. *)
Lemma seed_try_run s c r0 rest w1 :
  let records := r0 :: rest in
  let sent := (trace w1 ++ [EvConsoleLog (seeding_line s); insert_event s c records w1])%list in
  try_finally (seed_insert s c records) (release c) w1 =
    match insert_answer s c records w1 with
    | Throw e => (Throw e, World (heap w1) (sent ++ [EvRelease c]))
    | Return result =>
        if Z.eqb (affectedRows result) (Z.of_nat (length records))
        then (Return records,
              World (with_ids (insertId result) 0 records (heap w1))
                    (sent ++ [EvConsoleLog (seeded_line (length records)); EvRelease c]))
        else (Throw (insert_failed (length records)),
              World (heap w1) (sent ++ [EvRelease c]))
    end.
Proof.
  intros records sent. subst sent records. unfold try_finally.
  rewrite (seed_insert_run s c r0 rest w1). cbv zeta.
  destruct (insert_answer s c (r0 :: rest) w1) as [result|e]; [|reflexivity].
  destruct (Z.eqb _ _); unfold release, emit; simpl; [|reflexivity].
  by rewrite <- app_assoc.
Qed.

(** When the connection cannot be acquired, [seed] throws that error and
    nothing else happens. *)
Lemma seed_open_fails s count seederRecords w e :
  openConnection (_databaseService s) (trace w) = Throw e ->
  seed s count seederRecords w = (Throw e, w).
Proof.
  intros H. unfold seed, mbind, M_bind, db_openConnection. by rewrite H.
Qed.

(** On a batch that is not empty the connection is released last, whatever
    the database answers. *)
Lemma seed_releases_after_insert s count seederRecords w c r0 rest w1 :
  openConnection (_databaseService s) (trace w) = Return c ->
  selected_generator s count seederRecords (opened w c) = (Return (r0 :: rest), w1) ->
  exists evs, trace (seed s count seederRecords w).2 = trace w1 ++ evs ++ [EvRelease c].
Proof.
  intros Hopen Hgen.
  rewrite (seed_after_generator s count seederRecords w c Hopen _ _ Hgen).
  cbn [length Nat.eqb]. rewrite seed_try_run.
  destruct (insert_answer _ _ _ _) as [result|e]; [destruct (Z.eqb _ _)|]; simpl.
  - eexists [_; _; _]. by rewrite <- app_assoc.
  - eexists [_; _]. by rewrite <- app_assoc.
  - eexists [_; _]. by rewrite <- app_assoc.
Qed.

(** C2, evaluated where it fails.  A generator that produces no record
    makes [seed] return before its [try] block, and one that throws makes it
    leave there: in both runs connection 1 was acquired and the trace ends
    without its release. *)
Lemma seed_early_exits_keep_connection :
  let db := acknowledging 101 in
  let quiet := seed (plain_seeder db "games" false (creating [])) 0 [] empty_world in
  let broken := seed (plain_seeder db "games" false (failing (Error "no data"))) 3 [] empty_world in
  quiet = (Return [],
           World ∅ [EvOpenConnection 1%nat;
                    EvConsoleLog (COLOR_GRAY ++ "No records to seed for games" ++ COLOR_RESET)])
  /\ released 1%nat (trace quiet.2) = false
  /\ broken = (Throw (Error "no data"), World ∅ [EvOpenConnection 1%nat])
  /\ released 1%nat (trace broken.2) = false.
Proof. repeat split; reflexivity. Qed.

(** C3: when the database answers the insert of a non-empty batch with
    an affected-row count other than the number of generated records, [seed]
    throws [Error("Failed to insert <n> records")]; the heap is the one the
    generator left, so no record has received an identifier, and the
    connection is released. *)
Theorem seed_insert_count_mismatch s count seederRecords w c records w1 result :
  openConnection (_databaseService s) (trace w) = Return c ->
  selected_generator s count seederRecords (opened w c) = (Return records, w1) ->
  records <> [] ->
  insert_answer s c records w1 = Return result ->
  affectedRows result <> Z.of_nat (length records) ->
  seed s count seederRecords w
  = (Throw (insert_failed (length records)),
     World (heap w1)
       (trace w1 ++ [EvConsoleLog (seeding_line s); insert_event s c records w1;
                     EvRelease c])).
Proof.
  intros Hopen Hgen Hne Hans Hrows.
  rewrite (seed_after_generator s count seederRecords w c Hopen _ _ Hgen).
  destruct records as [|r0 rest]; [done|]. cbn [length Nat.eqb].
  rewrite seed_try_run, Hans.
  apply Z.eqb_neq in Hrows. rewrite Hrows.
  by rewrite <- app_assoc.
Qed.

Lemma seed_insert_count_mismatch_witness :
  let s := plain_seeder (one_row_only 101) "games" false
             (creating [(0%nat, game "a" 1); (1%nat, game "b" 2)]) in
  let w1 := World (<[0%nat := game "a" 1]> (<[1%nat := game "b" 2]> ∅))
                  [EvOpenConnection 1%nat] in
  seed s 2 [] empty_world
  = (Throw (Error "Failed to insert 2 records"),
     World (heap w1)
       (trace w1 ++ [EvConsoleLog (seeding_line s); insert_event s 1%nat [0%nat; 1%nat] w1;
                     EvRelease 1%nat])).
Proof.
  intros s w1.
  apply (seed_insert_count_mismatch s 2 [] empty_world 1%nat [0%nat; 1%nat] w1
           {| affectedRows := 1; insertId := 101 |}).
  - reflexivity.
  - reflexivity.
  - discriminate.
  - reflexivity.
  - simpl. lia.
Defined.

(** C4, as stated, fails three times.  [seed] never compares the batch with
    [count]: asked for three records, a generator that builds one gets that
    one inserted and returned.  The identifier loop writes through
    references: a batch that lists the same record at positions 0 and 1
    leaves it with identifier [insertId + 1], so position 0 does not carry
    [insertId + 0].  And [insertId + i] is an addition of binary64 numbers:
    from a first identifier of [2 ^ 53], two distinct records both get
    [2 ^ 53]. *)
Lemma seed_count_and_positions_not_enforced :
  let db := acknowledging 101 in
  let one := seed (plain_seeder db "games" false (creating [(0%nat, game "a" 1)]))
               3 [] empty_world in
  let twice := seed (plain_seeder db "games" false (repeating 0%nat (game "a" 1)))
                 2 [] empty_world in
  let crowded := seed (plain_seeder (acknowledging 9007199254740992) "games" false
                         (creating [(0%nat, game "a" 1); (1%nat, game "b" 2)]))
                   2 [] empty_world in
  one.1 = Return [0%nat]
  /\ twice.1 = Return [0%nat; 0%nat]
  /\ get_prop "id" (deref (heap twice.2) 0%nat) = VNum 102
  /\ crowded.1 = Return [0%nat; 1%nat]
  /\ get_prop "id" (deref (heap crowded.2) 0%nat) = VNum 9007199254740992
  /\ get_prop "id" (deref (heap crowded.2) 1%nat) = VNum 9007199254740992.
Proof. repeat split; reflexivity. Qed.

(** C4, amended: for a non-empty batch of pairwise distinct records whose
    insert is acknowledged with a matching affected-row count and whose
    identifiers stay within the safe integers ([|insertId|] plus the number
    of records at most [2 ^ 53]), [seed] returns the generated records
    themselves (as many as were generated), the record at position [i] gets
    [insertId + i] as its [id] and keeps its other properties, no other
    record changes, and the connection is released. *)
Theorem seed_assigns_consecutive_ids s count seederRecords w c records w1 result :
  openConnection (_databaseService s) (trace w) = Return c ->
  selected_generator s count seederRecords (opened w c) = (Return records, w1) ->
  records <> [] ->
  NoDup records ->
  insert_answer s c records w1 = Return result ->
  affectedRows result = Z.of_nat (length records) ->
  Z.abs (insertId result) + Z.of_nat (length records) <= 2 ^ 53 ->
  exists h2,
    seed s count seederRecords w
    = (Return records,
       World h2
         (trace w1 ++ [EvConsoleLog (seeding_line s); insert_event s c records w1;
                       EvConsoleLog (seeded_line (length records)); EvRelease c]))
    /\ (forall i r, records !! i = Some r ->
          deref h2 r = set_prop "id" (VNum (insertId result + Z.of_nat i)) (deref (heap w1) r)
          /\ get_prop "id" (deref h2 r) = VNum (insertId result + Z.of_nat i))
    /\ (forall r, r ∉ records -> h2 !! r = heap w1 !! r).
Proof.
  intros Hopen Hgen Hne Hnd Hans Hrows Hsafe.
  exists (with_ids (insertId result) 0 records (heap w1)).
  rewrite (seed_after_generator s count seederRecords w c Hopen _ _ Hgen).
  destruct records as [|r0 rest]; [done|]. cbn [length Nat.eqb].
  rewrite seed_try_run, Hans.
  apply Z.eqb_eq in Hrows. rewrite Hrows.
  split; [by rewrite <- app_assoc|]. split.
  - intros i r Hi.
    rewrite (with_ids_at _ _ 0 _ i r Hnd Hi). cbn [Nat.add].
    apply lookup_lt_Some in Hi.
    rewrite number_add_exact by lia.
    split; [done | apply get_prop_set_prop].
  - intros r Hr. by apply with_ids_other.
Qed.

(** The example of the specification: three [{name, price}] records and a
    first identifier of 101 give the identifiers 101, 102 and 103 in
    generation order. *)
Lemma seed_assigns_consecutive_ids_witness :
  let s := plain_seeder (acknowledging 101) "games" false
             (creating [(0%nat, game "a" 1); (1%nat, game "b" 2); (2%nat, game "c" 3)]) in
  exists h2,
    (seed s 3 [] empty_world).1 = Return [0%nat; 1%nat; 2%nat]
    /\ heap (seed s 3 [] empty_world).2 = h2
    /\ get_prop "id" (deref h2 0%nat) = VNum 101
    /\ get_prop "id" (deref h2 1%nat) = VNum 102
    /\ get_prop "id" (deref h2 2%nat) = VNum 103.
Proof.
  intros s.
  destruct (seed_assigns_consecutive_ids s 3 [] empty_world 1%nat [0%nat; 1%nat; 2%nat]
              (World (<[0%nat := game "a" 1]> (<[1%nat := game "b" 2]> (<[2%nat := game "c" 3]> ∅)))
                     [EvOpenConnection 1%nat])
              {| affectedRows := 3; insertId := 101 |}
              eq_refl eq_refl ltac:(discriminate)
              ltac:(refine (bool_decide_unpack _ _); vm_compute; exact I) eq_refl eq_refl
              ltac:(vm_compute; discriminate))
    as (h2 & Hrun & Hids & _).
  exists h2. rewrite Hrun. repeat split.
  - exact (proj2 (Hids 0%nat 0%nat eq_refl)).
  - exact (proj2 (Hids 1%nat 1%nat eq_refl)).
  - exact (proj2 (Hids 2%nat 2%nat eq_refl)).
Defined.

(** C5, as stated, fails for the [count = 0] half: [seed] looks at the
    length of what the generator returned, not at [count].  Asked for zero
    records, a generator that builds one anyway gets it inserted. *)
Lemma seed_count_zero_still_inserts :
  let run := seed (plain_seeder (acknowledging 101) "games" false
                     (creating [(0%nat, game "a" 1)])) 0 [] empty_world in
  run.1 = Return [0%nat]
  /\ issued_insert (trace run.2) = true.
Proof. split; reflexivity. Qed.

(** C5, amended: whenever the selected generator returns no record, [seed]
    returns the empty sequence without an error; after the generator it only
    writes one console line, so it sends no statement to the database and
    leaves the heap as the generator left it. *)
Theorem seed_nothing_generated s count seederRecords w c w1 :
  openConnection (_databaseService s) (trace w) = Return c ->
  selected_generator s count seederRecords (opened w c) = (Return [], w1) ->
  seed s count seederRecords w
  = (Return [], World (heap w1) (trace w1 ++ [EvConsoleLog (nothing_to_seed_line s)]))
  /\ issued_insert (trace (seed s count seederRecords w).2) = issued_insert (trace w1).
Proof.
  intros Hopen Hgen.
  rewrite (seed_after_generator s count seederRecords w c Hopen _ _ Hgen).
  split; [reflexivity|]. cbn [length Nat.eqb snd trace].
  unfold issued_insert. rewrite existsb_app. cbn [existsb]. by rewrite !orb_false_r.
Qed.

Lemma seed_nothing_generated_witness :
  let s := plain_seeder (acknowledging 101) "games" false (creating []) in
  seed s 0 [] empty_world
  = (Return [], World ∅ [EvOpenConnection 1%nat; EvConsoleLog (nothing_to_seed_line s)])
  /\ issued_insert (trace (seed s 0 [] empty_world).2) = false.
Proof.
  intros s.
  exact (seed_nothing_generated s 0 [] empty_world 1%nat
           (World ∅ [EvOpenConnection 1%nat]) eq_refl eq_refl).
Defined.

(** C6: a seeder that inherits [getRecordsDev] seeds the same way with the
    development flag set as with the flag unset: same outcome, same records,
    same statements. *)
Theorem seed_dev_mode_falls_back db table g count seederRecords w :
  seed (plain_seeder db table true g) count seederRecords w
  = seed (plain_seeder db table false g) count seederRecords w.
Proof.
  unfold seed. cbn [_devMode plain_seeder _databaseService _table getRecords].
  unfold getRecordsDev. cbn [getRecordsDev_override plain_seeder getRecords].
  reflexivity.
Qed.

(** The flag is not idle: an overriding subclass in development mode gets
    its own generator called. *)
Lemma seed_dev_mode_uses_override :
  let s := {| _databaseService := acknowledging 101; _table := "games"; _devMode := true;
              getRecords := creating [];
              getRecordsDev_override := Some (creating [(0%nat, game "a" 1)]) |} in
  (seed s 1 [] empty_world).1 = Return [0%nat].
Proof. reflexivity. Qed.

(** An object read under its own keys, in their order, gives its values in
    order: the keys of an object are pairwise distinct. *)
Lemma positional_own_keys (o : object) :
  NoDup (Object_keys o) -> positional (Object_keys o) o = VArr (Object_values o).
Proof.
  unfold positional, Object_keys, Object_values. intros Hnd. f_equal.
  induction o as [|[k v] o IH]; [done|].
  cbn [fmap list_fmap fst snd map] in *.
  apply NoDup_cons in Hnd as [Hk Hnd].
  cbn [get_prop]. rewrite String.eqb_refl. f_equal.
  rewrite <- (IH Hnd). apply map_ext_in. intros k' Hin.
  destruct (String.eqb k' k) eqn:E; [|done].
  apply String.eqb_eq in E as ->. by apply list_elem_of_In in Hin.
Qed.

(** C7, as stated, fails: sharing the first record's column set is not
    enough.  The second record below has the columns of the first in another
    order; its tuple follows its own order, so under the column list
    [name, price] the insert carries [2, 'b'] where the values by column are
    ['b', 2]. *)
Lemma seed_insert_rows_follow_own_key_order :
  let first := [("name", VStr "a"); ("price", VNum 1)] in
  let second := [("price", VNum 2); ("name", VStr "b")] in
  let run := seed (plain_seeder (acknowledging 101) "games" false
                     (creating [(0%nat, first); (1%nat, second)])) 2 [] empty_world in
  Object_keys second ≡ₚ Object_keys first
  /\ trace run.2 !! 2%nat
     = Some (EvQuery 1%nat (insert_sql "games" ["name"; "price"])
               [VArr [VArr [VStr "a"; VNum 1]; VArr [VNum 2; VStr "b"]]])
  /\ positional ["name"; "price"] second = VArr [VStr "b"; VNum 2].
Proof.
  repeat split; try reflexivity. apply perm_swap.
Qed.

(** C7, amended: for a non-empty batch in which every record has the first
    record's keys in the first record's order, the insert [seed] sends names
    exactly the first record's keys as its columns and carries one tuple per
    record, in batch order, each holding that record's values by column. *)
Theorem seed_insert_is_positional s count seederRecords w c r0 rest w1 :
  openConnection (_databaseService s) (trace w) = Return c ->
  selected_generator s count seederRecords (opened w c) = (Return (r0 :: rest), w1) ->
  (forall r, r ∈ r0 :: rest ->
     Object_keys (deref (heap w1) r) = Object_keys (deref (heap w1) r0)) ->
  NoDup (Object_keys (deref (heap w1) r0)) ->
  let columns := Object_keys (deref (heap w1) r0) in
  exists out h2 evs,
    seed s count seederRecords w
    = (out,
       World h2
         (trace w1
          ++ [EvConsoleLog (seeding_line s);
              EvQuery c (insert_sql (_table s) columns)
                [VArr (map (fun r => positional columns (deref (heap w1) r)) (r0 :: rest))]]
          ++ evs ++ [EvRelease c])).
Proof.
  intros Hopen Hgen Hkeys Hnd columns.
  assert (insert_event s c (r0 :: rest) w1
          = EvQuery c (insert_sql (_table s) columns)
              [VArr (map (fun r => positional columns (deref (heap w1) r)) (r0 :: rest))])
    as Hev.
  { unfold insert_event, insert_columns, insert_rows. fold columns. do 3 f_equal.
    apply map_ext_in. intros r Hin. apply list_elem_of_In in Hin.
    subst columns. rewrite <- (Hkeys r Hin). symmetry. apply positional_own_keys.
    rewrite (Hkeys r Hin). exact Hnd. }
  rewrite (seed_after_generator s count seederRecords w c Hopen _ _ Hgen).
  cbn [length Nat.eqb]. rewrite seed_try_run, Hev.
  destruct (insert_answer _ _ _ _) as [result|e]; [destruct (Z.eqb _ _)|].
  - eexists _, _, [_]. by rewrite <- !app_assoc.
  - eexists _, _, []. by rewrite <- !app_assoc.
  - eexists _, _, []. by rewrite <- !app_assoc.
Qed.

Lemma seed_insert_is_positional_witness :
  let s := plain_seeder (acknowledging 101) "games" false
             (creating [(0%nat, game "a" 1); (1%nat, game "b" 2)]) in
  exists out h2 evs,
    seed s 2 [] empty_world
    = (out,
       World h2
         ([EvOpenConnection 1%nat]
          ++ [EvConsoleLog (seeding_line s);
              EvQuery 1%nat (insert_sql "games" ["name"; "price"])
                [VArr [VArr [VStr "a"; VNum 1]; VArr [VStr "b"; VNum 2]]]]
          ++ evs ++ [EvRelease 1%nat])).
Proof.
  intros s.
  refine (seed_insert_is_positional s 2 [] empty_world 1%nat 0%nat [1%nat]
            (World (<[0%nat := game "a" 1]> (<[1%nat := game "b" 2]> ∅))
                   [EvOpenConnection 1%nat])
            eq_refl eq_refl _ _).
  - intros r Hr. apply elem_of_cons in Hr as [->|Hr]; [reflexivity|].
    apply list_elem_of_singleton in Hr as ->. reflexivity.
  - refine (bool_decide_unpack _ _). vm_compute. exact I.
Defined.

(** C8, as stated, fails: the identifier loop writes through references.
    When the generator hands back an upstream record, [seed] inserts it and
    overwrites its [id], so the upstream group no longer holds the values it
    held before the call. *)
Lemma seed_overwrites_reused_upstream_record :
  let before := World {[ 0%nat := [("name", VStr "a"); ("id", VNum 5)] ]} [] in
  let run := seed (plain_seeder (acknowledging 101) "copies" false reusing_upstream)
               1 [[0%nat]] before in
  run.1 = Return [0%nat]
  /\ deref (heap before) 0%nat = [("name", VStr "a"); ("id", VNum 5)]
  /\ deref (heap run.2) 0%nat = [("name", VStr "a"); ("id", VNum 101)].
Proof. repeat split; reflexivity. Qed.

(** C8, amended: [seed] runs the selected generator on [count] and the
    upstream groups exactly as it received them, and what it does itself
    afterwards changes no record other than those the generator returned:
    on return or error, every other record, so every upstream record the
    generator did not hand back, is as the generator left it. *)
Theorem seed_frames_other_records s count seederRecords w c out w1 :
  openConnection (_databaseService s) (trace w) = Return c ->
  selected_generator s count seederRecords (opened w c) = (out, w1) ->
  forall r,
    (forall records, out = Return records -> r ∉ records) ->
    heap (seed s count seederRecords w).2 !! r = heap w1 !! r.
Proof.
  intros Hopen Hgen r Hr.
  rewrite (seed_after_generator s count seederRecords w c Hopen _ _ Hgen).
  destruct out as [[|r0 rest]|e]; [done| |done].
  cbn [length Nat.eqb]. rewrite seed_try_run.
  destruct (insert_answer _ _ _ _) as [result|e]; [destruct (Z.eqb _ _)|]; cbn [snd heap];
    [|done|done].
  apply with_ids_other. by apply Hr.
Qed.

Lemma seed_frames_other_records_witness :
  let before := World {[ 7%nat := [("name", VStr "upstream"); ("id", VNum 5)] ]} [] in
  let s := plain_seeder (acknowledging 101) "games" false (creating [(0%nat, game "a" 1)]) in
  heap (seed s 1 [[7%nat]] before).2 !! 7%nat
  = Some [("name", VStr "upstream"); ("id", VNum 5)].
Proof.
  intros before s.
  refine (seed_frames_other_records s 1 [[7%nat]] before 1%nat (Return [0%nat])
            (World (<[0%nat := game "a" 1]> (heap before)) [EvOpenConnection 1%nat])
            eq_refl eq_refl 7%nat _).
  intros records Heq. injection Heq as <-.
  intros Hin. apply list_elem_of_singleton in Hin. discriminate Hin.
Defined.

(** ** getGames *)

(** A bound that is a number other than zero and [NaN] does filter. *)
Lemma getGames_price_bound_filters :
  let f := getGames_filters (with_minPrice (Some 10%float) tagged_page) in
  whereClause f = "WHERE gt.tagId IN (?,?) AND g.price >= ?"
  /\ whereClauseValues f = [3%float; 5%float; 10%float].
Proof. split; reflexivity. Qed.

(** C9: a price bound equal to zero ([0] or [-0]) is dropped like an
    absent one: with [minPrice] (respectively [maxPrice]) zero, [getGames]
    builds the same join, the same WHERE clause and the same values, hence
    the same two statements, as without that field. *)
Theorem getGames_zero_price_bound_is_absent (options : GetGamesOptions) (zero : number) :
  (zero =? 0)%float = true ->
  getGames_filters (with_minPrice (Some zero) options)
  = getGames_filters (with_minPrice None options)
  /\ getGames_statements (with_minPrice (Some zero) options)
     = getGames_statements (with_minPrice None options)
  /\ getGames_filters (with_maxPrice (Some zero) options)
     = getGames_filters (with_maxPrice None options)
  /\ getGames_statements (with_maxPrice (Some zero) options)
     = getGames_statements (with_maxPrice None options).
Proof.
  intros Hzero.
  assert (truthy_number zero = false) as Hfalsy.
  { unfold truthy_number. change (is_zero zero) with (zero =? 0)%float.
    by rewrite Hzero. }
  assert (getGames_filters (with_minPrice (Some zero) options)
          = getGames_filters (with_minPrice None options)) as Hmin.
  { unfold getGames_filters, filter_maxPrice, filter_minPrice, filter_tags.
    cbn [with_minPrice minPrice maxPrice tags]. by rewrite Hfalsy. }
  assert (getGames_filters (with_maxPrice (Some zero) options)
          = getGames_filters (with_maxPrice None options)) as Hmax.
  { unfold getGames_filters, filter_maxPrice, filter_minPrice, filter_tags.
    cbn [with_maxPrice minPrice maxPrice tags]. by rewrite Hfalsy. }
  unfold getGames_statements.
  rewrite Hmin, Hmax. repeat split; reflexivity.
Qed.

Lemma getGames_zero_price_bound_is_absent_witness :
  getGames_filters (with_minPrice (Some (-0)%float) tagged_page)
  = getGames_filters (with_minPrice None tagged_page)
  /\ getGames_statements (with_minPrice (Some (-0)%float) tagged_page)
     = getGames_statements (with_minPrice None tagged_page)
  /\ getGames_filters (with_maxPrice (Some (-0)%float) tagged_page)
     = getGames_filters (with_maxPrice None tagged_page)
  /\ getGames_statements (with_maxPrice (Some (-0)%float) tagged_page)
     = getGames_statements (with_maxPrice None tagged_page).
Proof.
  exact (getGames_zero_price_bound_is_absent tagged_page (-0)%float eq_refl).
Defined.

(** ** removeItem *)




(** The run of the witness, step by step: the deletion is attempted and
    rejected, the rejection is logged, the shortened cart is sent, and the
    page shows the one game left. *)
Lemma removeItem_rejected_run :
  removeItem rejecting_deletes 0 two_games
  = (Return tt,
     {| items := [cart_item 9%float "go" 15%float];
        shadowRoot := Some {| rows := [(0%nat, cart_item 9%float "go" 15%float)];
                              footer := CartTotal 15%float |};
        calls := [EvGetCart;
                  EvDeleteCartItem 7%float;
                  EvConsoleError delete_failed_line (Error "Failed to delete cart item");
                  EvUpdateCart [cart_item 9%float "go" 15%float]] |}).
Proof. reflexivity. Qed.

(** X16: beyond the end of the list nothing is removed: [item] is [undefined],
    reading its [gameId] throws inside the [try], and the error is logged. *)
Lemma removeItem_beyond_end cs (c : CartPageComponent) index :
  items c !! index = None ->
  items (removeItem cs index c).2 = items c
  /\ exists e log,
       calls (removeItem cs index c).2
       = calls c ++ EvConsoleError delete_failed_line (TypeError e) :: log.
Proof.
  intros Hnone.
  assert (delete index (items c) = items c) as Hkeep.
  { apply lookup_ge_None in Hnone. revert index Hnone.
    induction (items c) as [|x l IH]; intros [|i] Hi; simpl in *; try done; try lia.
    f_equal. apply IH. lia. }
  unfold removeItem, gets, splice1, updateBackendCart, try_catch, call_updateCart,
    console_error, web_emit, render, throw, mbind, M_bind.
  rewrite Hnone. cbn [items shadowRoot calls]. rewrite Hkeep.
  destruct (updateCart cs _ (items c)) as [[]|e']; cbn [items shadowRoot calls];
    destruct (shadowRoot c); cbn [snd items calls];
    (split; [reflexivity|]); eexists _, _; rewrite <- ?app_assoc; reflexivity.
Qed.

(** * Further properties *)

(** ** getGames: placeholders and values *)

Lemma count_char_app a s1 s2 :
  count_char a (s1 ++ s2)%string = (count_char a s1 + count_char a s2)%nat.
Proof.
  induction s1 as [|b s1 IH]; [done|].
  simpl. rewrite IH. lia.
Qed.

(** Counts the placeholders of a literal piece of text. *)
Ltac count_literal s :=
  let n := eval vm_compute in (placeholders s) in
  change (placeholders s) with n.

Ltac count_literals :=
  repeat match goal with
         | |- context [placeholders (String ?a ?s)] => count_literal (String a s)
         end.

Lemma placeholders_app s1 s2 :
  placeholders (s1 ++ s2)%string = (placeholders s1 + placeholders s2)%nat.
Proof. apply count_char_app. Qed.

(** [tags.map(() => '?').join(',')] has one placeholder per tag. *)
Lemma placeholders_tag_list (l : list number) :
  placeholders (String.concat "," (map (fun _ => "?") l)) = length l.
Proof.
  induction l as [|t l IH]; [done|].
  destruct l as [|t' l]; [done|].
  change (String.concat "," (map (fun _ : number => "?") (t :: t' :: l)))
    with ("?" ++ "," ++ String.concat "," (map (fun _ : number => "?") (t' :: l)))%string.
  rewrite !placeholders_app, IH. reflexivity.
Qed.

Lemma placeholders_add_condition w cond :
  placeholders (add_condition w cond) = (placeholders w + placeholders cond)%nat.
Proof.
  unfold add_condition. rewrite !placeholders_app.
  destruct (truthy_string w); [count_literal " AND " | count_literal "WHERE "]; lia.
Qed.

(** Each filter step adds as many placeholders as values. *)
Lemma filter_steps_keep_balance options f :
  placeholders (whereClause f) = length (whereClauseValues f) ->
  placeholders (whereClause (filter_tags options f))
    = length (whereClauseValues (filter_tags options f))
  /\ placeholders (whereClause (filter_minPrice options f))
     = length (whereClauseValues (filter_minPrice options f))
  /\ placeholders (whereClause (filter_maxPrice options f))
     = length (whereClauseValues (filter_maxPrice options f)).
Proof.
  intros Hf. unfold filter_tags, filter_minPrice, filter_maxPrice. repeat split.
  - destruct (tags options) as [[|t ts]|]; try done.
    cbn [whereClause whereClauseValues].
    rewrite placeholders_add_condition, !placeholders_app, placeholders_tag_list.
    rewrite length_app, Hf. count_literal "gt.tagId IN (". count_literal ")".
    cbn [length]. lia.
  - destruct (minPrice options) as [p|]; [|done].
    destruct (truthy_number p); [|done]. cbn [whereClause whereClauseValues].
    rewrite placeholders_add_condition, length_app, Hf.
    count_literal "g.price >= ?". reflexivity.
  - destruct (maxPrice options) as [p|]; [|done].
    destruct (truthy_number p); [|done]. cbn [whereClause whereClauseValues].
    rewrite placeholders_add_condition, length_app, Hf.
    count_literal "g.price <= ?". reflexivity.
Qed.

Lemma getGames_filters_balance options :
  placeholders (whereClause (getGames_filters options))
  = length (whereClauseValues (getGames_filters options)).
Proof.
  unfold getGames_filters.
  apply filter_steps_keep_balance, filter_steps_keep_balance, filter_steps_keep_balance.
  reflexivity.
Qed.

Lemma tagJoin_has_no_placeholder options :
  placeholders (tagJoin (getGames_filters options)) = 0%nat.
Proof.
  unfold getGames_filters, filter_maxPrice, filter_minPrice, filter_tags.
  destruct (tags options) as [[|t ts]|];
    destruct (minPrice options) as [p|]; try destruct (truthy_number p);
    destruct (maxPrice options) as [q|]; try destruct (truthy_number q);
    reflexivity.
Qed.

(** X1: whatever the options, the WHERE clause [getGames] builds has exactly
    one placeholder per collected value, and so has the count statement it
    sends: its text has as many placeholders as it is given values. *)
Theorem getGames_count_statement_is_balanced (options : GetGamesOptions) :
  let f := getGames_filters options in
  let counting := (getGames_statements options).2 in
  placeholders (whereClause f) = length (whereClauseValues f)
  /\ placeholders (sql_text counting) = length (sql_params counting).
Proof.
  intros f counting. split; [apply getGames_filters_balance|].
  subst counting. unfold getGames_statements. cbn [snd sql_text sql_params].
  rewrite !placeholders_app, tagJoin_has_no_placeholder, getGames_filters_balance.
  count_literals. lia.
Qed.

Lemma sort_direction_has_no_placeholder options :
  placeholders (sort_direction options) = 0%nat.
Proof.
  unfold sort_direction. destruct (sort options) as [s|]; [|done].
  by destruct (String.eqb s "desc").
Qed.

(** X2: when the [sortBy] option holds no question mark, the page statement
    of [getGames] has exactly one placeholder per value: those of the WHERE
    clause, then the limit and the offset. *)
Theorem getGames_page_statement_is_balanced (options : GetGamesOptions) :
  (forall column, sortBy options = Some column -> placeholders column = 0%nat) ->
  let paging := (getGames_statements options).1 in
  placeholders (sql_text paging) = length (sql_params paging)
  /\ length (sql_params paging)
     = (length (whereClauseValues (getGames_filters options)) + 2)%nat.
Proof.
  intros Hsort paging. subst paging.
  unfold getGames_statements. cbn [fst sql_text sql_params].
  assert (placeholders (sortByQuery options) = 0%nat) as Hq.
  { unfold sortByQuery. destruct (sortBy options) as [column|] eqn:E.
    - destruct (truthy_string column);
        rewrite !placeholders_app, ?sort_direction_has_no_placeholder, ?(Hsort column eq_refl);
        count_literals; reflexivity.
    - rewrite placeholders_app, sort_direction_has_no_placeholder.
      count_literals. reflexivity. }
  rewrite !placeholders_app, tagJoin_has_no_placeholder, getGames_filters_balance, Hq.
  rewrite length_app. change (placeholders getGameBaseQuery) with 0%nat.
  count_literals. cbn [length]. lia.
Qed.

Lemma getGames_page_statement_is_balanced_witness :
  let paging := (getGames_statements (with_minPrice (Some 10%float) tagged_page)).1 in
  placeholders (sql_text paging) = 5%nat
  /\ length (sql_params paging) = 5%nat.
Proof.
  intros paging. subst paging.
  destruct (getGames_page_statement_is_balanced (with_minPrice (Some 10%float) tagged_page))
    as [H1 H2].
  - intros column Hcolumn. injection Hcolumn as <-. reflexivity.
  - split; [rewrite H1|]; exact H2.
Defined.

(** The hypothesis on [sortBy] is needed: the option is copied into the text
    as it is. *)
Lemma getGames_sortBy_is_copied_verbatim :
  let options := {| page := 1%float; limit := 10%float; sortBy := Some "price, ?";
                    sort := None; tags := None; minPrice := None; maxPrice := None |} in
  sortByQuery options = "ORDER BY g.price, ? ASC"
  /\ placeholders (sql_text (getGames_statements options).1) = 3%nat
  /\ length (sql_params (getGames_statements options).1) = 2%nat.
Proof. repeat split; reflexivity. Qed.

(** X3: the WHERE clause is empty exactly when no filter applied, and
    otherwise starts with [WHERE]; the join on [games_tags] is there exactly
    when the tag filter applied. *)
Theorem getGames_where_clause_shape (options : GetGamesOptions) :
  let f := getGames_filters options in
  (whereClauseValues f = [] /\ whereClause f = ""
   \/ whereClauseValues f <> [] /\ String.prefix "WHERE " (whereClause f) = true)
  /\ (tagJoin f = ""
      /\ (tags options = None \/ tags options = Some [])
      \/ tagJoin f = "JOIN games_tags gt ON g.id = gt.gameId"
         /\ exists t ts, tags options = Some (t :: ts)).
Proof.
  intros f. subst f.
  unfold getGames_filters, filter_maxPrice, filter_minPrice, filter_tags.
  destruct (tags options) as [[|t ts]|];
    destruct (minPrice options) as [p|]; try destruct (truthy_number p);
    destruct (maxPrice options) as [q|]; try destruct (truthy_number q);
    cbn [whereClause whereClauseValues tagJoin];
    (split;
     [ first [ left; split; reflexivity
             | right; split; [ try discriminate; by destruct ts | reflexivity ] ]
     | first [ left; split; [reflexivity | by auto]
             | right; split; [reflexivity | by eauto] ] ]).
Qed.

(** X4: an empty tag list and a [NaN] price bound are ignored like absent
    ones: the statements are those of the options without that field. *)
Theorem getGames_empty_tags_and_NaN_bounds_are_absent (options : GetGamesOptions)
    (bound : number) :
  is_nan bound = true ->
  getGames_statements (with_tags (Some []) options)
  = getGames_statements (with_tags None options)
  /\ getGames_statements (with_minPrice (Some bound) options)
     = getGames_statements (with_minPrice None options)
  /\ getGames_statements (with_maxPrice (Some bound) options)
     = getGames_statements (with_maxPrice None options).
Proof.
  intros Hnan.
  assert (truthy_number bound = false) as Hfalsy.
  { unfold truthy_number. rewrite Hnan. by rewrite orb_true_r. }
  unfold getGames_statements, getGames_filters, filter_maxPrice, filter_minPrice, filter_tags.
  cbn [with_tags with_minPrice with_maxPrice tags minPrice maxPrice page limit].
  rewrite Hfalsy. repeat split; reflexivity.
Qed.

Lemma getGames_empty_tags_and_NaN_bounds_are_absent_witness :
  getGames_statements (with_tags (Some []) tagged_page)
  = getGames_statements (with_tags None tagged_page)
  /\ getGames_statements (with_minPrice (Some nan) tagged_page)
     = getGames_statements (with_minPrice None tagged_page)
  /\ getGames_statements (with_maxPrice (Some nan) tagged_page)
     = getGames_statements (with_maxPrice None tagged_page).
Proof.
  exact (getGames_empty_tags_and_NaN_bounds_are_absent tagged_page nan eq_refl).
Defined.

(** ** GameService: connections *)

Section game_calls.
Context {Game : Type} (db : GameQueries.GameDatabase Game).
Context (tr : list GameQueries.game_event).

Lemma game_openConnection_Return c :
  GameQueries.acquire db tr = Return c ->
  GameQueries.openConnection db tr = (Return c, tr ++ [GameQueries.EvAcquire c]).
Proof. intros H. unfold GameQueries.openConnection. by rewrite H. Qed.

Lemma game_openConnection_Throw e :
  GameQueries.acquire db tr = Throw e ->
  GameQueries.openConnection db tr = (Throw e, tr).
Proof. intros H. unfold GameQueries.openConnection. by rewrite H. Qed.

(** A method that sends one statement inside [try] and releases in
    [finally]: the answer of the database is the outcome, and the release is
    the last event. *)
Lemma one_statement_run c sql params :
  try_finally (GameQueries.query_games db c sql params) (GameQueries.release c)
    (tr ++ [GameQueries.EvAcquire c])
  = (GameQueries.select_games db (tr ++ [GameQueries.EvAcquire c]) c sql params,
     tr ++ [GameQueries.EvAcquire c; GameQueries.EvSelect c sql params;
            GameQueries.EvGiveBack c]).
Proof.
  unfold try_finally, GameQueries.query_games, GameQueries.release.
  by rewrite <- !app_assoc.
Qed.

(** X5: once [getGames] holds a connection, it gives it back as its last
    step on every path (a failing page query, a failing count query, a count
    result without a row), and in between it only sends statements, at most
    two, on that connection. *)
Theorem getGames_gives_connection_back Math_ceil options c :
  GameQueries.acquire db tr = Return c ->
  exists out evs,
    GameQueries.getGames db Math_ceil options tr
    = (out, tr ++ [GameQueries.EvAcquire c] ++ evs ++ [GameQueries.EvGiveBack c])
    /\ GameQueries.only_selects_on c evs = true
    /\ (length evs <= 2)%nat.
Proof.
  intros Hopen. unfold GameQueries.getGames.
  rewrite (bind_Return _ _ _ _ _ (game_openConnection_Return c Hopen)).
  set (statements := getGames_statements options).
  unfold try_finally, mbind, M_bind, GameQueries.query_games, GameQueries.query_counts,
    GameQueries.release, throw, mret, M_ret.
  destruct (GameQueries.select_games db _ c _ _) as [games|e].
  - destruct (GameQueries.select_counts db _ c _ _) as [[|first rest]|e];
      eexists _, [_; _]; rewrite <- !app_assoc;
      (split; [reflexivity|]); cbn; rewrite Nat.eqb_refl; (split; [reflexivity | lia]).
  - eexists _, [_]. rewrite <- !app_assoc.
    split; [reflexivity|]. cbn. rewrite Nat.eqb_refl. split; [reflexivity | lia].
Qed.

(** X6: a count result without any row makes [getGames] throw a
    [TypeError] (it reads [totalCount] of [countResult[0]]), after both
    statements were sent; the connection is given back all the same. *)
Theorem getGames_count_without_row Math_ceil options c games :
  let statements := getGames_statements options in
  let paging := GameQueries.EvSelect c (sql_text statements.1)
                  (GameQueries.SqlNumber <$> sql_params statements.1) in
  let counting := GameQueries.EvSelect c (sql_text statements.2)
                    (GameQueries.SqlNumber <$> sql_params statements.2) in
  GameQueries.acquire db tr = Return c ->
  GameQueries.select_games db (tr ++ [GameQueries.EvAcquire c]) c
    (sql_text statements.1) (GameQueries.SqlNumber <$> sql_params statements.1)
  = Return games ->
  GameQueries.select_counts db (tr ++ [GameQueries.EvAcquire c; paging]) c
    (sql_text statements.2) (GameQueries.SqlNumber <$> sql_params statements.2)
  = Return [] ->
  GameQueries.getGames db Math_ceil options tr
  = (Throw (TypeError "Cannot read properties of undefined (reading 'totalCount')"),
     tr ++ [GameQueries.EvAcquire c; paging; counting; GameQueries.EvGiveBack c]).
Proof.
  intros statements paging counting Hopen Hgames Hcounts. unfold GameQueries.getGames.
  rewrite (bind_Return _ _ _ _ _ (game_openConnection_Return c Hopen)).
  fold statements.
  unfold try_finally, mbind, M_bind, GameQueries.query_games, GameQueries.query_counts,
    GameQueries.release, throw.
  rewrite Hgames. rewrite <- !app_assoc. cbn [app]. fold paging.
  rewrite Hcounts. subst paging counting. by rewrite <- !app_assoc.
Qed.

(** X7: each of the four single-statement methods hands the database's
    answer (rows or error) to its caller unchanged and gives the connection
    back right after the statement.  [searchGames] sends a fixed text and
    passes the search string, wrapped in [%], as the only value. *)
Theorem single_statement_methods_give_connection_back Number_toString userId gameId
    search id c :
  GameQueries.acquire db tr = Return c ->
  let held := tr ++ [GameQueries.EvAcquire c] in
  let run sql params :=
    (GameQueries.select_games db held c sql params,
     tr ++ [GameQueries.EvAcquire c; GameQueries.EvSelect c sql params;
            GameQueries.EvGiveBack c]) in
  GameQueries.getOwnedGames db userId gameId tr
  = run (GameQueries.getOwnedGames_statement userId gameId).1
        (GameQueries.getOwnedGames_statement userId gameId).2
  /\ GameQueries.searchGames db search tr
     = run GameQueries.searchGames_sql [GameQueries.SqlString ("%" ++ search ++ "%")]
  /\ GameQueries.getGameById db Number_toString id tr
     = run (GameQueries.gameById_sql Number_toString id) []
  /\ GameQueries.getFiveRandomGames db tr
     = run GameQueries.fiveRandomGames_sql [].
Proof.
  intros Hopen held run. subst run held.
  unfold GameQueries.getOwnedGames, GameQueries.searchGames, GameQueries.getGameById,
    GameQueries.executeGameByIdQuery, GameQueries.getFiveRandomGames,
    GameQueries.executeFiveRandomGamesQuery.
  rewrite !(bind_Return _ _ _ _ _ (game_openConnection_Return c Hopen)).
  cbv zeta. rewrite !one_statement_run. by repeat split.
Qed.

(** X8: when no connection can be acquired, every method of [GameService]
    throws that error and sends nothing. *)
Theorem game_methods_without_connection Math_ceil Number_toString options userId gameId
    search id e :
  GameQueries.acquire db tr = Throw e ->
  GameQueries.getGames db Math_ceil options tr = (Throw e, tr)
  /\ GameQueries.getOwnedGames db userId gameId tr = (Throw e, tr)
  /\ GameQueries.searchGames db search tr = (Throw e, tr)
  /\ GameQueries.getGameById db Number_toString id tr = (Throw e, tr)
  /\ GameQueries.getFiveRandomGames db tr = (Throw e, tr).
Proof.
  intros Hopen.
  unfold GameQueries.getGames, GameQueries.getOwnedGames, GameQueries.searchGames,
    GameQueries.getGameById, GameQueries.executeGameByIdQuery,
    GameQueries.getFiveRandomGames, GameQueries.executeFiveRandomGamesQuery.
  rewrite !(bind_Throw _ _ _ _ _ (game_openConnection_Throw e Hopen)).
  by repeat split.
Qed.

End game_calls.

Lemma getGames_gives_connection_back_witness :
  exists out evs,
    GameQueries.getGames GameQueries.unreachable_tables (fun x => x) tagged_page []
    = (out, [] ++ [GameQueries.EvAcquire 4%nat] ++ evs ++ [GameQueries.EvGiveBack 4%nat])
    /\ GameQueries.only_selects_on 4%nat evs = true
    /\ (length evs <= 2)%nat.
Proof.
  exact (getGames_gives_connection_back GameQueries.unreachable_tables []
           (fun x => x) tagged_page 4%nat eq_refl).
Defined.

Lemma getGames_count_without_row_witness :
  (GameQueries.getGames GameQueries.countless (fun x => x) tagged_page []).1
  = Throw (TypeError "Cannot read properties of undefined (reading 'totalCount')").
Proof.
  exact (f_equal fst
           (getGames_count_without_row GameQueries.countless [] (fun x => x) tagged_page
              4%nat [11%nat; 12%nat] eq_refl eq_refl eq_refl)).
Defined.

Lemma single_statement_methods_give_connection_back_witness :
  GameQueries.searchGames GameQueries.two_of_seven "chess" []
  = (Return [11%nat; 12%nat],
     [GameQueries.EvAcquire 4%nat;
      GameQueries.EvSelect 4%nat GameQueries.searchGames_sql [GameQueries.SqlString "%chess%"];
      GameQueries.EvGiveBack 4%nat]).
Proof.
  exact (proj1 (proj2
           (single_statement_methods_give_connection_back GameQueries.two_of_seven []
              (fun _ => "5") 3%float None "chess" 5%float 4%nat eq_refl))).
Defined.

Lemma game_methods_without_connection_witness :
  GameQueries.getGames GameQueries.no_connection (fun x => x) tagged_page []
  = (Throw (Error "Too many connections"), []).
Proof.
  exact (proj1
           (game_methods_without_connection GameQueries.no_connection []
              (fun x => x) (fun _ => "5") tagged_page 3%float None "chess" 5%float
              (Error "Too many connections") eq_refl)).
Defined.

(** ** getOwnedGames: the statement *)

(** X9: the statement of [getOwnedGames] always has one placeholder per
    value, and a [gameId] that is zero or [NaN] is dropped like an absent one:
    the statement then asks for all games the user owns. *)
Theorem getOwnedGames_statement_is_balanced (userId : number) (gameId : option number) :
  let statement := GameQueries.getOwnedGames_statement userId gameId in
  placeholders statement.1 = length statement.2
  /\ (forall g, gameId = Some g -> truthy_number g = false ->
        statement = GameQueries.getOwnedGames_statement userId None).
Proof.
  intros statement. subst statement. split.
  - unfold GameQueries.getOwnedGames_statement. cbn [fst snd].
    rewrite !placeholders_app. change (placeholders getGameBaseQuery) with 0%nat.
    change (placeholders GameQueries.DQUOTE) with 0%nat.
    destruct gameId as [g|]; [destruct (truthy_number g)|]; count_literals; reflexivity.
  - intros g -> Hg. unfold GameQueries.getOwnedGames_statement. by rewrite Hg.
Qed.

(** ** Seeder: errors and what is left alone *)

(** X10: when no connection can be acquired, [seed] and [truncate] throw
    that error and nothing else happens: no generator runs, no statement is
    sent, no record changes. *)
Theorem seeder_without_connection s count seederRecords w e :
  openConnection (_databaseService s) (trace w) = Throw e ->
  seed s count seederRecords w = (Throw e, w)
  /\ truncate s w = (Throw e, w).
Proof.
  intros Hopen. split; [by apply seed_open_fails|].
  unfold truncate, mbind, M_bind, db_openConnection. by rewrite Hopen.
Qed.

Lemma seeder_without_connection_witness :
  let s := plain_seeder pool_exhausted "games" false (creating [(0%nat, game "a" 1)]) in
  seed s 1 [] empty_world = (Throw (Error "Too many connections"), empty_world)
  /\ truncate s empty_world = (Throw (Error "Too many connections"), empty_world).
Proof.
  intros s. exact (seeder_without_connection s 1 [] empty_world _ eq_refl).
Defined.

(** X11: when the database rejects the insert of a non-empty batch, [seed]
    throws the database's error as it is; the records are as the generator
    left them and the connection is released. *)
Theorem seed_insert_error_propagates s count seederRecords w c records w1 e :
  openConnection (_databaseService s) (trace w) = Return c ->
  selected_generator s count seederRecords (opened w c) = (Return records, w1) ->
  records <> [] ->
  insert_answer s c records w1 = Throw e ->
  seed s count seederRecords w
  = (Throw e,
     World (heap w1)
       (trace w1 ++ [EvConsoleLog (seeding_line s); insert_event s c records w1;
                     EvRelease c])).
Proof.
  intros Hopen Hgen Hne Hans.
  rewrite (seed_after_generator s count seederRecords w c Hopen _ _ Hgen).
  destruct records as [|r0 rest]; [done|]. cbn [length Nat.eqb].
  rewrite seed_try_run, Hans. by rewrite <- app_assoc.
Qed.

Lemma seed_insert_error_propagates_witness :
  let s := plain_seeder rejecting_statements "games" false (creating [(0%nat, game "a" 1)]) in
  let w1 := World (<[0%nat := game "a" 1]> ∅) [EvOpenConnection 1%nat] in
  seed s 1 [] empty_world
  = (Throw (Error "Unknown column 'price' in 'field list'"),
     World (heap w1)
       (trace w1 ++ [EvConsoleLog (seeding_line s); insert_event s 1%nat [0%nat] w1;
                     EvRelease 1%nat])).
Proof.
  intros s w1.
  apply (seed_insert_error_propagates s 1 [] empty_world 1%nat [0%nat] w1);
    [reflexivity | reflexivity | discriminate | reflexivity].
Defined.

(** The identifier loop leaves every property other than [id] alone, also
    on a batch that lists a record more than once. *)
Lemma with_ids_keeps_other_columns insertId records : forall i h r k,
  k <> "id" ->
  get_prop k (deref (with_ids insertId i records h) r) = get_prop k (deref h r).
Proof.
  induction records as [|r' rest IH]; intros i h r k Hk; [done|].
  cbn [with_ids]. rewrite IH by done. unfold deref.
  destruct (decide (r' = r)) as [->|Hne].
  - rewrite lookup_insert_eq. cbn. apply get_prop_set_prop_ne. congruence.
  - by rewrite lookup_insert_ne.
Qed.

(** X12: whatever the batch and whatever the database answers, the only
    property [seed] itself ever writes is [id]: after the generator has run,
    every other property of every record reads the same on return or error
    as before. *)
Theorem seed_only_writes_id s count seederRecords w c out w1 :
  openConnection (_databaseService s) (trace w) = Return c ->
  selected_generator s count seederRecords (opened w c) = (out, w1) ->
  forall r k,
    k <> "id" ->
    get_prop k (deref (heap (seed s count seederRecords w).2) r)
    = get_prop k (deref (heap w1) r).
Proof.
  intros Hopen Hgen r k Hk.
  rewrite (seed_after_generator s count seederRecords w c Hopen _ _ Hgen).
  destruct out as [[|r0 rest]|e]; [done| |done].
  cbn [length Nat.eqb]. rewrite seed_try_run.
  destruct (insert_answer _ _ _ _) as [result|e]; [destruct (Z.eqb _ _)|]; cbn [snd heap];
    [|done|done].
  by apply with_ids_keeps_other_columns.
Qed.

Lemma seed_only_writes_id_witness :
  let s := plain_seeder (acknowledging 101) "games" false (repeating 0%nat (game "a" 1)) in
  get_prop "price" (deref (heap (seed s 2 [] empty_world).2) 0%nat) = VNum 1.
Proof.
  intros s.
  refine (seed_only_writes_id s 2 [] empty_world 1%nat (Return [0%nat; 0%nat])
            (World (<[0%nat := game "a" 1]> ∅) [EvOpenConnection 1%nat])
            eq_refl eq_refl 0%nat "price" _).
  discriminate.
Defined.

(** X13: for a non-empty batch [seed] sends exactly one statement, the
    multi-row insert, whatever the size of the batch: after the generator
    the events are the insert, console lines only, and the release of the
    connection as the last one. *)
Theorem seed_sends_one_statement s count seederRecords w c r0 rest w1 :
  openConnection (_databaseService s) (trace w) = Return c ->
  selected_generator s count seederRecords (opened w c) = (Return (r0 :: rest), w1) ->
  exists out h2 evs,
    seed s count seederRecords w
    = (out,
       World h2
         (trace w1
          ++ [EvConsoleLog (seeding_line s); insert_event s c (r0 :: rest) w1]
          ++ evs ++ [EvRelease c]))
    /\ only_console_lines evs = true.
Proof.
  intros Hopen Hgen.
  rewrite (seed_after_generator s count seederRecords w c Hopen _ _ Hgen).
  cbn [length Nat.eqb]. rewrite seed_try_run.
  destruct (insert_answer _ _ _ _) as [result|e]; [destruct (Z.eqb _ _)|].
  - eexists _, _, [_]. split; [by rewrite <- !app_assoc | reflexivity].
  - eexists _, _, []. split; [by rewrite <- !app_assoc | reflexivity].
  - eexists _, _, []. split; [by rewrite <- !app_assoc | reflexivity].
Qed.

Lemma seed_sends_one_statement_witness :
  let s := plain_seeder (acknowledging 101) "games" false
             (creating [(0%nat, game "a" 1); (1%nat, game "b" 2); (2%nat, game "c" 3)]) in
  let w1 := World (<[0%nat := game "a" 1]> (<[1%nat := game "b" 2]> (<[2%nat := game "c" 3]> ∅)))
                  [EvOpenConnection 1%nat] in
  exists out h2 evs,
    seed s 3 [] empty_world
    = (out,
       World h2
         (trace w1
          ++ [EvConsoleLog (seeding_line s); insert_event s 1%nat [0%nat; 1%nat; 2%nat] w1]
          ++ evs ++ [EvRelease 1%nat]))
    /\ only_console_lines evs = true.
Proof.
  intros s w1.
  exact (seed_sends_one_statement s 3 [] empty_world 1%nat 0%nat [1%nat; 2%nat] w1
           eq_refl eq_refl).
Defined.

(** ** CartPageComponent: the page and its list *)

(** X14: [removeItem] never rejects, whatever the index and whatever the
    cart service answers: a missing item and rejected calls end in
    [console.error] lines. *)
Theorem removeItem_always_resolves cs (c : CartPageComponent) index :
  (removeItem cs index c).1 = Return tt.
Proof.
  unfold removeItem, gets, splice1, updateBackendCart, try_catch, call_deleteCartItem,
    call_updateCart, console_error, web_emit, render, throw, mbind, M_bind.
  destruct (items c !! index) as [item|]; cbn [items shadowRoot calls].
  - destruct (deleteCartItem cs _ _) as [[]|e]; cbn [items shadowRoot calls];
      destruct (updateCart cs _ _) as [[]|e']; cbn [items shadowRoot calls];
      by destruct (shadowRoot c).
  - destruct (updateCart cs _ _) as [[]|e']; cbn [items shadowRoot calls];
      by destruct (shadowRoot c).
Qed.

Lemma build_view_rows (l : list CartItem) k :
  rows (build_view l) !! k = (fun item => (k, item)) <$> l !! k.
Proof. unfold build_view. cbn [rows]. apply list_lookup_imap. Qed.

(** X15: after [removeItem], at any index and whatever the cart service
    answers, a page that has a shadow tree shows the list as it is now: row
    [k] shows the item at position [k], and its remove button is bound to
    [k]. *)
Theorem removeItem_view_follows_items cs (c : CartPageComponent) index :
  let after := (removeItem cs index c).2 in
  shadowRoot after = (fun _ => build_view (items after)) <$> shadowRoot c
  /\ (forall v k, shadowRoot after = Some v ->
        rows v !! k = (fun item => (k, item)) <$> items after !! k)
  /\ (forall v, shadowRoot after = Some v ->
        footer v = CartEmpty <-> items after = []).
Proof.
  intros after.
  assert (shadowRoot after = (fun _ => build_view (items after)) <$> shadowRoot c) as Hview.
  { subst after.
    unfold removeItem, gets, splice1, updateBackendCart, try_catch, call_deleteCartItem,
      call_updateCart, console_error, web_emit, render, throw, mbind, M_bind.
    destruct (items c !! index) as [item|]; cbn [items shadowRoot calls].
    - destruct (deleteCartItem cs _ _) as [[]|e]; cbn [items shadowRoot calls];
        destruct (updateCart cs _ _) as [[]|e']; cbn [items shadowRoot calls];
        by destruct (shadowRoot c).
    - destruct (updateCart cs _ _) as [[]|e']; cbn [items shadowRoot calls];
        by destruct (shadowRoot c). }
  split; [exact Hview|]. rewrite Hview.
  split.
  - intros v k Hv. destruct (shadowRoot c); [|done].
    injection Hv as <-. apply build_view_rows.
  - intros v Hv. destruct (shadowRoot c); [|done].
    injection Hv as <-. unfold build_view. cbn [footer].
    destruct (items after) as [|x l]; cbn; split; done.
Qed.

Lemma removeItem_beyond_end_witness :
  items (removeItem offline 5 two_games).2 = items two_games
  /\ exists e log,
       calls (removeItem offline 5 two_games).2
       = calls two_games ++ EvConsoleError delete_failed_line (TypeError e) :: log.
Proof.
  exact (removeItem_beyond_end offline two_games 5 eq_refl).
Defined.

(** X17: the first [connectedCallback] of a component always resolves and
    leaves a rendered page: it shows the cart the service returned, or, when
    [getCart] rejects, an empty cart with the rejection logged. *)
Theorem connectedCallback_first_rendering cs (c : CartPageComponent) :
  shadowRoot c = None ->
  let after := (connectedCallback cs c).2 in
  (connectedCallback cs c).1 = Return tt
  /\ shadowRoot after = Some (build_view (items after))
  /\ match getCart cs (calls c) with
     | Return l => items after = l /\ calls after = calls c ++ [EvGetCart]
     | Throw e =>
         items after = []
         /\ calls after = calls c ++ [EvGetCart; EvConsoleError cart_failed_line e]
     end.
Proof.
  intros Hroot after. subst after.
  unfold connectedCallback, attachShadow, call_getCart, set_items, try_catch,
    console_error, web_emit, render, mbind, M_bind.
  rewrite Hroot. cbn [items shadowRoot calls].
  destruct (getCart cs (calls c)) as [l|e]; cbn [items shadowRoot calls fst snd];
    rewrite <- ?app_assoc; by repeat split.
Qed.

Lemma connectedCallback_first_rendering_witness :
  let after := (connectedCallback offline new_component).2 in
  (connectedCallback offline new_component).1 = Return tt
  /\ shadowRoot after = Some (build_view (items after))
  /\ items after = []
  /\ calls after = [EvGetCart; EvConsoleError cart_failed_line (Error "Failed to fetch")].
Proof.
  exact (connectedCallback_first_rendering offline new_component eq_refl).
Defined.
